(** * research_app.py: a shallow embedding and its verified properties

    The program is a Streamlit page that chains a hosted language model and
    the arXiv retriever into a report generator and renders the report as a
    PDF.  Its own code is sequencing and string assembly; everything else is
    a call into a library or a remote service.

    Conventions of the embedding.
    - A Python [str] is the list of its Unicode code points ([pystr]); a
      [bytes] object is a [list byte].
    - Values whose type is decided at run time (the result of [json.loads],
      the argument of [parse_json]) live in [pyobj].
    - Effects are explicit: a computation is a function from the trace of
      everything observable that happened so far to a result (a value or a
      raised exception) and the extended trace.
    - Libraries and services that are not part of the repository ([json],
      [unicodedata], [fpdf], the language model, the arXiv retriever) are the
      fields of an environment [Env]; every theorem holds for every
      environment.  Reference models of [json.loads] and of a few services
      are given at the end of the definitions and are used to run the
      program on concrete inputs. *)

From Stdlib Require Import List String Ascii Strings.Byte NArith ZArith QArith Bool Lia.
Import ListNotations.
Close Scope Q_scope.

Set Implicit Arguments.
Set Warnings "-register-all".

(* ------------------------------------------------------------------ *)
(** ** Python strings and bytes *)

Module Py.

Definition codepoint := N.
Definition pystr := list codepoint.

Definition is_ascii (c : codepoint) : bool := (c <? 128)%N.

(** A source literal made of ASCII characters. *)
Definition str (s : string) : pystr :=
  map N_of_ascii (list_ascii_of_string s).

Definition LF : codepoint := 10%N.
Definition DQUOTE : codepoint := 34%N.

Fixpoint pystr_eqb (a b : pystr) : bool :=
  match a, b with
  | [], [] => true
  | x :: a', y :: b' => (x =? y)%N && pystr_eqb a' b'
  | _, _ => false
  end.

(** [sep.join(xs)] *)
Fixpoint join (sep : pystr) (xs : list pystr) : pystr :=
  match xs with
  | [] => []
  | x :: rest =>
      match rest with
      | [] => x
      | _ :: _ => x ++ sep ++ join sep rest
      end
  end.

(** [s.encode("ascii", "ignore")] *)
Definition encode_ascii_ignore (s : pystr) : list byte :=
  flat_map (fun c => if is_ascii c
                     then match Byte.of_N c with Some b => [b] | None => [] end
                     else []) s.

(** [s.encode("latin1", errors="replace")]: one byte per character, a
    question mark for every character above U+00FF. *)
Definition encode_latin1_replace (s : pystr) : list byte :=
  map (fun c => match Byte.of_N c with Some b => b | None => "?"%byte end) s.

End Py.
Export Py.

(* ------------------------------------------------------------------ *)
(** ** Exceptions, dynamic values, results *)

Inductive exn : Type :=
| JSONDecodeError            (* json.JSONDecodeError, a ValueError *)
| ValueError (msg : string)
| TypeError
| UnicodeDecodeError
| RecursionError
| ServiceError (what : string)  (* any Exception raised by a service or library *)
| KeyboardInterrupt.            (* a BaseException that is not an Exception *)

(** [isinstance(e, Exception)] *)
Definition is_Exception (e : exn) : bool :=
  match e with KeyboardInterrupt => false | _ => true end.

(** [isinstance(e, json.JSONDecodeError)] *)
Definition is_JSONDecodeError (e : exn) : bool :=
  match e with JSONDecodeError => true | _ => false end.

Inductive result (A : Type) : Type :=
| Ok (a : A)
| Raise (e : exn).
Arguments Ok {A} a.
Arguments Raise {A} e.

Inductive pyobj : Type :=
| PyNone
| PyBool (b : bool)
| PyInt (z : Z)
| PyFloat (lit : pystr)        (* the float that the literal [lit] denotes *)
| PyStr (s : pystr)
| PyBytes (b : list byte)
| PyList (items : list pyobj)
| PyDict (pairs : list (pystr * pyobj)).  (* insertion-ordered, keys unique *)

(** [d[k] = v] on an insertion-ordered dict. *)
Fixpoint dict_set (d : list (pystr * pyobj)) (k : pystr) (v : pyobj)
  : list (pystr * pyobj) :=
  match d with
  | [] => [(k, v)]
  | (k', v') :: d' =>
      if pystr_eqb k' k then (k', v) :: d' else (k', v') :: dict_set d' k v
  end.

(** [dict(pairs)] *)
Definition dict_of_pairs (ps : list (pystr * pyobj)) : list (pystr * pyobj) :=
  fold_left (fun d kv => dict_set d (fst kv) (snd kv)) ps [].

(** [[q for q in x]]: the items Python's iteration protocol yields, or the
    [TypeError] it raises on a value that is not iterable. *)
Definition py_iter (x : pyobj) : result (list pyobj) :=
  match x with
  | PyList items => Ok items
  | PyDict pairs => Ok (map (fun kv => PyStr (fst kv)) pairs)
  | PyStr s => Ok (map (fun c => PyStr [c]) s)
  | PyBytes b => Ok (map (fun c => PyInt (Z.of_N (Byte.to_N c))) b)
  | PyNone | PyBool _ | PyInt _ | PyFloat _ => Raise TypeError
  end.

(* ------------------------------------------------------------------ *)
(** ** The flattening helper (research_app.py, lines 20-21) *)

Definition double_newline : pystr := [LF; LF].

(** [def flatten_list(nested_list):
       return "\n\n".join("\n\n".join(sublist) for sublist in nested_list)] *)
Definition flatten_list (nested_list : list (list pystr)) : pystr :=
  join double_newline (map (fun sublist => join double_newline sublist) nested_list).

(* ------------------------------------------------------------------ *)
(** ** Handles, prompts and the observable trace *)

(** A document as the retriever returns it: the program reads
    [metadata['Title']] and [metadata['Entry ID']] and nothing else. *)
Record Document : Type := {
  page_content : pystr;
  Entry_ID : pystr;
  Title : pystr
}.

(** [GoogleGenerativeAI(model=..., google_api_key=..., temperature=...)] *)
Record GoogleGenerativeAI : Type := {
  model : pystr;
  google_api_key : pystr;
  temperature : Q
}.

(** [ArxivRetriever()] takes no configuration. *)
Inductive ArxivRetriever : Type := ArxivRetriever_default.

(** A prompt is a template of the program together with the values bound to
    its variables; the chat library renders it for the model. *)
Inductive prompt : Type :=
| summary_prompt (doc : Document) (question : pyobj)
| search_prompt (question : pyobj)
| writer_prompt (research_summary question url_list : pyobj).

(** The text of a template: literal text and named variables. *)
Inductive piece : Type :=
| Text (t : pystr)
| Var (name : string).

(** [def get_summary_prompt()] *)
Definition get_summary_prompt : list (string * list piece) :=
  [("human"%string,
    [Var "doc"; Text ([LF; LF] ++ str "-----------" ++ [LF]
       ++ str "Using the above text, answer in short:" ++ [LF; LF] ++ str "> ");
     Var "question"; Text ([LF] ++ str "-----------" ++ [LF]
       ++ str "If the question cannot be answered, summarize all factual information, numbers, and statistics.")])].

(** [search_prompt] of [create_search_query_chain] *)
Definition search_template : list (string * list piece) :=
  [("user"%string,
    [Text (str "Generate 3 Google search queries to find objective information on: ");
     Var "question";
     Text ([LF] ++ str "Respond strictly as a JSON list: ['query 1', 'query 2', 'query 3']")])].

(** [writer_prompt] of [create_final_chain] *)
Definition writer_template : list (string * list piece) :=
  [("system"%string,
    [Text (str "You are an expert academic writer. Generate a high-quality research paper based on input.")]);
   ("user"%string,
    [Text ([LF] ++ str "        Information:" ++ [LF] ++ str "--------" ++ [LF]);
     Var "research_summary";
     Text ([LF] ++ str "--------" ++ [LF; LF]
       ++ str "        Write a detailed research paper on: " ++ [DQUOTE]);
     Var "question";
     Text ([DQUOTE] ++ str "." ++ [LF; LF]
       ++ str "        - Include an in-depth literature review, findings, statistics, and APA citations."
       ++ [LF] ++ str "        - Ensure at least 1,200 words."
       ++ [LF] ++ str "        - List references with clickable links from ");
     Var "url_list"; Text (str ".")])].

Definition template_of (p : prompt) : list (string * list piece) :=
  match p with
  | summary_prompt _ _ => get_summary_prompt
  | search_prompt _ => search_template
  | writer_prompt _ _ _ => writer_template
  end.

(** The calls the program makes on its [FPDF] object. *)
Inductive fpdf_call : Type :=
| FPDF_init
| add_page
| set_auto_page_break (auto : bool) (margin : Z)
| add_font (family style fname : string) (uni : bool)
| set_font (family : string) (size : Z)
| multi_cell (w h : Z) (txt : pystr).

(** The calls the program makes on the Streamlit page. *)
Inductive st_call : Type :=
| set_page_config (page_title page_icon : pystr) (layout : string)
| title (body : pystr)
| markdown (body : pystr)
| sidebar_text_input (label : pystr) (type : string)
| text_input (label : pystr)
| button (label : pystr)
| error (body : pystr)
| spinner_enter (text : pystr)
| spinner_exit
| success (body : pystr)
| download_button (label : pystr) (data : list byte) (file_name mime : string).

Inductive event : Type :=
| Streamlit (c : st_call)
| New_llm (llm : GoogleGenerativeAI)
| New_retriever (r : ArxivRetriever)
| Generate (llm : GoogleGenerativeAI) (p : prompt) (answer : result pystr)
| Retrieve (r : ArxivRetriever) (query : pyobj) (docs : result (list Document))
| Fpdf (c : fpdf_call) (raised : option exn)
| Fpdf_output (dest : string) (out : result (pystr + list byte)).

Definition trace := list event.

(** Events of the report pipeline: a client is constructed or a service is
    called. *)
Definition is_pipeline_event (e : event) : bool :=
  match e with
  | New_llm _ | New_retriever _ | Generate _ _ _ | Retrieve _ _ _ => true
  | _ => false
  end.

(** What lies outside the repository.  A service may answer differently
    every time: its answer is a function of the whole history. *)
Record Env : Type := {
  (** [json.loads] *)
  json_loads : pyobj -> result pyobj;
  (** [format(v)] for a value that is not a [str] *)
  py_format : pyobj -> pystr;
  (** [unicodedata.normalize('NFKD', s)] *)
  normalize_NFKD : pystr -> pystr;
  (** the hosted model, after [StrOutputParser] *)
  llm_answer : trace -> GoogleGenerativeAI -> prompt -> result pystr;
  (** [ArxivRetriever.get_summaries_as_docs] *)
  arxiv_docs : trace -> ArxivRetriever -> pyobj -> result (list Document);
  (** whether a method of the [FPDF] object raises *)
  fpdf_raises : trace -> fpdf_call -> option exn;
  (** [FPDF.output(dest)]: a [str] in PyFPDF, a [bytearray] in fpdf2 *)
  fpdf_document : trace -> string -> result (pystr + list byte)
}.

(* ------------------------------------------------------------------ *)
(** ** Computations *)

Definition M (A : Type) : Type := trace -> result A * trace.

Definition ret {A} (a : A) : M A := fun t => (Ok a, t).

Definition bind {A B} (m : M A) (k : A -> M B) : M B :=
  fun t => match m t with
           | (Ok a, t') => k a t'
           | (Raise e, t') => (Raise e, t')
           end.

Notation "x <- c ;; k" := (bind c (fun x => k))
  (at level 61, c at next level, right associativity).
Notation "c ;; k" := (bind c (fun _ => k))
  (at level 61, right associativity).

Definition raise {A} (e : exn) : M A := fun t => (Raise e, t).

Definition lift {A} (r : result A) : M A := fun t => (r, t).

Definition emit (e : event) : M unit := fun t => (Ok tt, t ++ [e]).

(** [try: body  except <class>: handler] *)
Definition try_except {A} (body : M A) (class : exn -> bool) (handler : M A) : M A :=
  fun t => match body t with
           | (Raise e, t') => if class e then handler t' else (Raise e, t')
           | ok => ok
           end.

(** [chain.map()]: the chain on every input, results in input order. *)
Fixpoint mapM {A B} (f : A -> M B) (xs : list A) : M (list B) :=
  match xs with
  | [] => ret []
  | x :: xs' => y <- f x ;; ys <- mapM f xs' ;; ret (y :: ys)
  end.

(* ------------------------------------------------------------------ *)
(** ** The program *)

Section Program.

Variable E : Env.

(** Calls that leave the program. *)

Definition st (c : st_call) : M unit := emit (Streamlit c).

Definition invoke (llm : GoogleGenerativeAI) (p : prompt) : M pystr :=
  fun t => let answer := llm_answer E t llm p in
           (answer, t ++ [Generate llm p answer]).

Definition get_summaries_as_docs (retriever : ArxivRetriever) (query : pyobj)
  : M (list Document) :=
  fun t => let docs := arxiv_docs E t retriever query in
           (docs, t ++ [Retrieve retriever query docs]).

Definition fpdf (c : fpdf_call) : M unit :=
  fun t => let raised := fpdf_raises E t c in
           (match raised with None => Ok tt | Some e => Raise e end,
            t ++ [Fpdf c raised]).

Definition output (dest : string) : M (pystr + list byte) :=
  fun t => let out := fpdf_document E t dest in
           (out, t ++ [Fpdf_output dest out]).

(** [f"{v}"] *)
Definition format (v : pyobj) : pystr :=
  match v with
  | PyStr s => s
  | _ => py_format E v
  end.

(** [def parse_json(raw_output: str):
       try:
           return json.loads(raw_output)
       except json.JSONDecodeError:
           st.error(f"Error decoding JSON. Raw output: {raw_output}")
           return []] *)
Definition parse_json (raw_output : pyobj) : M pyobj :=
  try_except
    (lift (json_loads E raw_output))
    is_JSONDecodeError
    (st (error (str "Error decoding JSON. Raw output: " ++ format raw_output)) ;;
     ret (PyList [])).

(** [s.decode('ascii')] *)
Definition decode_ascii (b : list byte) : result pystr :=
  if forallb (fun c => is_ascii (Byte.to_N c)) b
  then Ok (map Byte.to_N b)
  else Raise UnicodeDecodeError.

(** [unicodedata.normalize('NFKD', report_text)
       .encode('ascii', 'ignore').decode('ascii')] *)
Definition transliterate (report_text : pystr) : result pystr :=
  decode_ascii (encode_ascii_ignore (normalize_NFKD E report_text)).

(** [def generate_pdf(report_text: str) -> bytes] (lines 24-42) *)
Definition generate_pdf (report_text : pystr) : M (list byte) :=
  match report_text with
  | [] => raise (ValueError "No report content provided.")
  | _ :: _ =>
      fpdf FPDF_init ;;
      fpdf add_page ;;
      fpdf (set_auto_page_break true 15) ;;
      content <-
        try_except
          (fpdf (add_font "DejaVu" EmptyString "DejaVuSans.ttf" true) ;;
           fpdf (set_font "DejaVu" 12) ;;
           ret report_text)
          is_Exception
          (fpdf (set_font "Helvetica" 12) ;;
           lift (transliterate report_text)) ;;
      fpdf (multi_cell 0 10 content) ;;
      pdf_output <- output "S" ;;
      ret (match pdf_output with
           | inl s => encode_latin1_replace s
           | inr b => b
           end)
  end.

(** [def initialize_llm(api_key: str)] *)
Definition initialize_llm (api_key : pystr) : M GoogleGenerativeAI :=
  let llm := {| model := str "gemini-1.5-flash";
                google_api_key := api_key;
                temperature := (8 # 10)%Q |} in
  emit (New_llm llm) ;; ret llm.

(** [def initialize_retriever()] *)
Definition initialize_retriever : M ArxivRetriever :=
  emit (New_retriever ArxivRetriever_default) ;; ret ArxivRetriever_default.

(** The chains.  A chain input is a dict built by the program itself; it is
    passed here as its fields ([x["question"]] is the argument [question],
    [x["doc"]] the argument [doc]).  The steps of a chain run one after the
    other, and so do the entries of a dict of chains, in the order they are
    written. *)

(** [f"Title: {x['doc'].metadata['Title']}\n\nSUMMARY: {x['summary']}"] *)
Definition summary_record (doc : Document) (summary : pystr) : pystr :=
  str "Title: " ++ Title doc ++ [LF; LF] ++ str "SUMMARY: " ++ summary.

(** [def create_summary_chain(llm)] *)
Definition create_summary_chain (llm : GoogleGenerativeAI)
    (question : pyobj) (doc : Document) : M pystr :=
  summary <- invoke llm (summary_prompt doc question) ;;
  ret (summary_record doc summary).

(** [def create_web_search_chain(retriever, llm)] *)
Definition create_web_search_chain (retriever : ArxivRetriever)
    (llm : GoogleGenerativeAI) (question : pyobj) : M (list pystr) :=
  let summary_chain := create_summary_chain llm in
  found <- get_summaries_as_docs retriever question ;;
  let docs := firstn 10 found in
  mapM (fun u => summary_chain question u) docs.

(** [def create_search_query_chain(llm)] *)
Definition create_search_query_chain (llm : GoogleGenerativeAI)
    (question : pyobj) : M pyobj :=
  x <- invoke llm (search_prompt question) ;;
  parse_json (PyStr x).

(** [def create_full_research_chain(llm, retriever)] *)
Definition create_full_research_chain (llm : GoogleGenerativeAI)
    (retriever : ArxivRetriever) (question : pyobj) : M (list (list pystr)) :=
  let search_chain := create_search_query_chain llm in
  let web_chain := create_web_search_chain retriever llm in
  x <- search_chain question ;;
  qs <- lift (py_iter x) ;;
  mapM web_chain qs.

(** [f"[{item['Title']}]({item['url']})"] *)
Definition markdown_link (u : Document) : pystr :=
  str "[" ++ Title u ++ str "](" ++ Entry_ID u ++ str ")".

(** [def create_url_list_chain(retriever)]: the value stored under
    ["url_list"] and the dict the chain returns. *)
Definition url_list_text (docs : list Document) : pystr :=
  join [LF] (map markdown_link (firstn 10 docs)).

Definition create_url_list_chain (retriever : ArxivRetriever)
    (question : pyobj) : M pyobj :=
  found <- get_summaries_as_docs retriever question ;;
  ret (PyDict [(str "url_list", PyStr (url_list_text found))]).

(** [def create_research_summary_chain(full_research_chain)]: the input
    dict with the key ["research_summary"] added. *)
Definition create_research_summary_chain
    (full_research_chain : pyobj -> M (list (list pystr)))
    (question : pyobj) : M pyobj :=
  nested <- full_research_chain question ;;
  ret (PyDict [(str "question", question);
               (str "research_summary", PyStr (flatten_list nested))]).

(** [def create_final_chain(llm, retriever)] *)
Definition create_final_chain (llm : GoogleGenerativeAI)
    (retriever : ArxivRetriever) (question : pyobj) : M pystr :=
  let full_research_chain := create_full_research_chain llm retriever in
  let research_summary_chain := create_research_summary_chain full_research_chain in
  let url_list_chain := create_url_list_chain retriever in
  let passthrough := PyDict [(str "question", question)] in
  research_summary <- research_summary_chain question ;;
  url_list <- url_list_chain question ;;
  invoke llm (writer_prompt research_summary passthrough url_list).

(** What the widgets return in one run of the script. *)
Record widgets : Type := {
  google_api_key_input : pystr;
  research_topic_input : pystr;
  generate_clicked : bool
}.

Definition welcome : pystr :=
  [LF] ++ str "        ### Welcome!"
  ++ [LF] ++ str "        This tool generates comprehensive research papers by aggregating Arxiv research articles."
  ++ [LF] ++ str "        1. Enter your Google API key."
  ++ [LF] ++ str "        2. Provide a research topic."
  ++ [LF] ++ str "        3. Click *Generate Report*."
  ++ [LF] ++ str "        4. Download the generated report as a PDF."
  ++ [LF] ++ str "    ".

(** [with st.spinner(text): body] *)
Definition with_spinner {A} (text : pystr) (body : M A) : M A :=
  fun t => match body (t ++ [Streamlit (spinner_enter text)]) with
           | (r, t') => (r, t' ++ [Streamlit spinner_exit])
           end.

(** What [main] draws before it looks at the button. *)
Definition page_head : list event :=
  [Streamlit (set_page_config (str "AI Research Assistant") [128300%N] "wide");
   Streamlit (title ([128218%N] ++ str " AI Research Assistant"));
   Streamlit (markdown welcome);
   Streamlit (sidebar_text_input (str "Enter Google Gemini API Key") "password");
   Streamlit (text_input (str "Enter Research Topic:"));
   Streamlit (button (str "Generate Report"))].

(** [def main()] (lines 118-150) *)
Definition main (w : widgets) : M unit :=
  st (set_page_config (str "AI Research Assistant") [128300%N] "wide") ;;
  st (title ([128218%N] ++ str " AI Research Assistant")) ;;
  st (markdown welcome) ;;
  st (sidebar_text_input (str "Enter Google Gemini API Key") "password") ;;
  let google_api_key := google_api_key_input w in
  st (text_input (str "Enter Research Topic:")) ;;
  let research_topic := research_topic_input w in
  st (button (str "Generate Report")) ;;
  if generate_clicked w then
    match google_api_key with
    | [] => st (error (str "API Key is required."))
    | _ :: _ =>
        match research_topic with
        | [] => st (error (str "Research topic is required."))
        | _ :: _ =>
            report <-
              with_spinner (str "Generating report...")
                (llm <- initialize_llm google_api_key ;;
                 retriever <- initialize_retriever ;;
                 create_final_chain llm retriever (PyStr research_topic)) ;;
            st (success (str "Report generated!")) ;;
            st (markdown report) ;;
            pdf_bytes <- generate_pdf report ;;
            st (download_button (str "Download PDF") pdf_bytes
                  "research_report.pdf" "application/pdf")
        end
    end
  else ret tt.

End Program.

(* ------------------------------------------------------------------ *)
(** ** A reference model of [json.loads]

    The decoder of CPython's [json] package with its default settings:
    [str] input is scanned by the JSON grammar (with the constants [NaN],
    [Infinity] and [-Infinity]), [bytes] input is first decoded with the
    encoding [json.detect_encoding] picks, anything else is a [TypeError].
    Integers are unbounded, a float is kept as its literal, and the
    interpreter's recursion limit is fuel. *)

Module Json.

Open Scope N_scope.

Definition is_ws (c : codepoint) : bool :=
  (c =? 32) || (c =? 9) || (c =? 10) || (c =? 13).

Fixpoint skip_ws (s : pystr) : pystr :=
  match s with
  | c :: s' => if is_ws c then skip_ws s' else s
  | [] => []
  end.

Definition is_digit (c : codepoint) : bool := (48 <=? c) && (c <=? 57).

Definition hex_value (c : codepoint) : option N :=
  if is_digit c then Some (c - 48)
  else if (65 <=? c) && (c <=? 70) then Some (c - 55)
  else if (97 <=? c) && (c <=? 102) then Some (c - 87)
  else None.

Definition hex4 (a b c d : codepoint) : option N :=
  match hex_value a, hex_value b, hex_value c, hex_value d with
  | Some x, Some y, Some z, Some w => Some (((x * 16 + y) * 16 + z) * 16 + w)
  | _, _, _, _ => None
  end.

(** The character a one-letter escape stands for. *)
Definition backslash (c : codepoint) : option codepoint :=
  if c =? 34 then Some 34          (* quotation mark *)
  else if c =? 92 then Some 92     (* reverse solidus *)
  else if c =? 47 then Some 47     (* solidus *)
  else if c =? 98 then Some 8      (* b: backspace *)
  else if c =? 102 then Some 12    (* f: form feed *)
  else if c =? 110 then Some 10    (* n: line feed *)
  else if c =? 114 then Some 13    (* r: carriage return *)
  else if c =? 116 then Some 9     (* t: tab *)
  else None.

Definition is_high_surrogate (u : N) : bool := (55296 <=? u) && (u <=? 56319).
Definition is_low_surrogate (u : N) : bool := (56320 <=? u) && (u <=? 57343).

(** [scanstring], strict, from just after the opening quote: the decoded
    text (reversed in [acc]) and what follows the closing quote; [None]
    stands for a [JSONDecodeError]. *)
Fixpoint scanstring (s : pystr) (acc : pystr) : option (pystr * pystr) :=
  match s with
  | [] => None                                   (* unterminated *)
  | c :: rest =>
      if c =? 34 then Some (rev acc, rest)
      else if c <? 32 then None                  (* control character *)
      else if c =? 92 then
        match rest with
        | [] => None
        | e :: rest1 =>
            if e =? 117 then
              match rest1 with
              | h1 :: h2 :: h3 :: h4 :: rest2 =>
                  match hex4 h1 h2 h3 h4 with
                  | None => None
                  | Some uni =>
                      match rest2 with
                      | 92 :: 117 :: rest3 =>
                          if is_high_surrogate uni then
                            match rest3 with
                            | l1 :: l2 :: l3 :: l4 :: rest4 =>
                                match hex4 l1 l2 l3 l4 with
                                | None => None
                                | Some uni2 =>
                                    if is_low_surrogate uni2
                                    then scanstring rest4
                                           (65536 + ((uni - 55296) * 1024 + (uni2 - 56320)) :: acc)
                                    else scanstring rest2 (uni :: acc)
                                end
                            | _ => None
                            end
                          else scanstring rest2 (uni :: acc)
                      | _ => scanstring rest2 (uni :: acc)
                      end
                  end
              | _ => None
              end
            else
              match backslash e with
              | Some ch => scanstring rest1 (ch :: acc)
              | None => None
              end
        end
      else scanstring rest (c :: acc)
  end.

Fixpoint span_digits (s : pystr) : pystr * pystr :=
  match s with
  | c :: s' => if is_digit c
               then let (ds, r) := span_digits s' in (c :: ds, r)
               else ([], s)
  | [] => ([], [])
  end.

Definition digits_value (ds : pystr) : Z :=
  fold_left (fun acc c => (acc * 10 + Z.of_N (c - 48))%Z) ds 0%Z.

(** The integer part of a number: [0], or a non-zero digit and digits. *)
Definition integer_part (s : pystr) : option (pystr * pystr) :=
  match s with
  | c :: s' =>
      if c =? 48 then Some ([c], s')
      else if is_digit c then let (ds, r) := span_digits s' in Some (c :: ds, r)
      else None
  | [] => None
  end.

(** [(\.\d+)?] *)
Definition frac_part (s : pystr) : pystr * pystr :=
  match s with
  | 46 :: s' =>
      match span_digits s' with
      | ([], _) => ([], s)
      | (ds, r) => (46 :: ds, r)
      end
  | _ => ([], s)
  end.

(** [([eE][-+]?\d+)?] *)
Definition exp_part (s : pystr) : pystr * pystr :=
  match s with
  | e :: s' =>
      if (e =? 101) || (e =? 69) then
        match s' with
        | sign :: s'' =>
            if (sign =? 45) || (sign =? 43) then
              match span_digits s'' with
              | ([], _) => ([], s)
              | (ds, r) => (e :: sign :: ds, r)
              end
            else
              match span_digits s' with
              | ([], _) => ([], s)
              | (ds, r) => (e :: ds, r)
              end
        | [] => ([], s)
        end
      else ([], s)
  | [] => ([], s)
  end.

Definition match_number (s : pystr) : option (pyobj * pystr) :=
  let (neg, s1) := match s with
                   | 45 :: s' => (true, s')
                   | _ => (false, s)
                   end in
  match integer_part s1 with
  | None => None
  | Some (int, s2) =>
      let (frac, s3) := frac_part s2 in
      let (exp, s4) := exp_part s3 in
      match frac, exp with
      | [], [] =>
          Some (PyInt (if neg then - digits_value int else digits_value int)%Z, s4)
      | _, _ =>
          Some (PyFloat ((if neg then [45] else []) ++ int ++ frac ++ exp), s4)
      end
  end.

(** [s] starts with the ASCII word [w]: what follows it. *)
Fixpoint after_prefix (w s : pystr) : option pystr :=
  match w, s with
  | [], _ => Some s
  | a :: w', b :: s' => if a =? b then after_prefix w' s' else None
  | _ :: _, [] => None
  end.

Definition constants : list (pystr * pyobj) :=
  [(str "null", PyNone); (str "true", PyBool true); (str "false", PyBool false)].

Definition float_constants : list (pystr * pyobj) :=
  [(str "NaN", PyFloat (str "nan")); (str "Infinity", PyFloat (str "inf"));
   (str "-Infinity", PyFloat (str "-inf"))].

Fixpoint match_constant (cs : list (pystr * pyobj)) (s : pystr)
  : option (pyobj * pystr) :=
  match cs with
  | [] => None
  | (w, v) :: cs' =>
      match after_prefix w s with
      | Some rest => Some (v, rest)
      | None => match_constant cs' s
      end
  end.

(** [scan_once], [JSONArray] and [JSONObject]. *)
Fixpoint scan_once (fuel : nat) (s : pystr) : result (pyobj * pystr) :=
  match fuel with
  | O => Raise RecursionError
  | S fuel' =>
      match s with
      | [] => Raise JSONDecodeError
      | c :: rest =>
          if c =? 34 then
            match scanstring rest [] with
            | Some (text, rest') => Ok (PyStr text, rest')
            | None => Raise JSONDecodeError
            end
          else if c =? 123 then
            match skip_ws rest with
            | 125 :: rest' => Ok (PyDict [], rest')
            | rest1 => json_object fuel' rest1 []
            end
          else if c =? 91 then
            match skip_ws rest with
            | 93 :: rest' => Ok (PyList [], rest')
            | rest1 => json_array fuel' rest1 []
            end
          else
            match match_constant constants s with
            | Some r => Ok r
            | None =>
                match match_number s with
                | Some r => Ok r
                | None =>
                    match match_constant float_constants s with
                    | Some r => Ok r
                    | None => Raise JSONDecodeError
                    end
                end
            end
      end
  end

with json_array (fuel : nat) (s : pystr) (acc : list pyobj)
  : result (pyobj * pystr) :=
  match fuel with
  | O => Raise RecursionError
  | S fuel' =>
      match scan_once fuel' s with
      | Raise e => Raise e
      | Ok (v, rest) =>
          match skip_ws rest with
          | 93 :: rest' => Ok (PyList (rev (v :: acc)), rest')
          | 44 :: rest' => json_array fuel' (skip_ws rest') (v :: acc)
          | _ => Raise JSONDecodeError
          end
      end
  end

with json_object (fuel : nat) (s : pystr) (acc : list (pystr * pyobj))
  : result (pyobj * pystr) :=
  match fuel with
  | O => Raise RecursionError
  | S fuel' =>
      match s with
      | 34 :: s1 =>
          match scanstring s1 [] with
          | None => Raise JSONDecodeError
          | Some (key, s2) =>
              match skip_ws s2 with
              | 58 :: s3 =>
                  match scan_once fuel' (skip_ws s3) with
                  | Raise e => Raise e
                  | Ok (v, rest) =>
                      match skip_ws rest with
                      | 125 :: rest' =>
                          Ok (PyDict (dict_of_pairs (rev ((key, v) :: acc))), rest')
                      | 44 :: rest' =>
                          json_object fuel' (skip_ws rest') ((key, v) :: acc)
                      | _ => Raise JSONDecodeError
                      end
                  end
              | _ => Raise JSONDecodeError
              end
          end
      | _ => Raise JSONDecodeError
      end
  end.

(** [JSONDecoder.decode] *)
Definition decode (s : pystr) : result pyobj :=
  match scan_once (2 * List.length s + 2) (skip_ws s) with
  | Raise e => Raise e
  | Ok (obj, rest) =>
      match skip_ws rest with
      | [] => Ok obj
      | _ :: _ => Raise JSONDecodeError
      end
  end.

(** [json.detect_encoding] *)
Inductive encoding : Type :=
| utf_8 | utf_8_sig
| utf_16 | utf_16_be | utf_16_le
| utf_32 | utf_32_be | utf_32_le.

Definition starts_with (w b : list N) : bool :=
  match after_prefix w b with Some _ => true | None => false end.

Definition detect_encoding (b : list N) : encoding :=
  if starts_with [0; 0; 254; 255] b || starts_with [255; 254; 0; 0] b then utf_32
  else if starts_with [254; 255] b || starts_with [255; 254] b then utf_16
  else if starts_with [239; 187; 191] b then utf_8_sig
  else
    match b with
    | b0 :: b1 :: b2 :: b3 :: _ =>
        if b0 =? 0 then (if b1 =? 0 then utf_32_be else utf_16_be)
        else if b1 =? 0
             then (if (b2 =? 0) && (b3 =? 0) then utf_32_le else utf_16_le)
             else utf_8
    | [b0; b1] =>
        if b0 =? 0 then utf_16_be
        else if b1 =? 0 then utf_16_le
        else utf_8
    | _ => utf_8
    end.

Definition is_cont (b : N) : bool := (128 <=? b) && (b <=? 191).

(** UTF-8 with the [surrogatepass] handler; [None] stands for a
    [UnicodeDecodeError]. *)
Fixpoint decode_utf_8 (b : list N) : option pystr :=
  match b with
  | [] => Some []
  | b0 :: r0 =>
      if b0 <? 128 then option_map (cons b0) (decode_utf_8 r0)
      else
        match r0 with
        | [] => None
        | b1 :: r1 =>
            if (194 <=? b0) && (b0 <=? 223) then
              if is_cont b1
              then option_map (cons ((b0 - 192) * 64 + (b1 - 128))) (decode_utf_8 r1)
              else None
            else
              match r1 with
              | [] => None
              | b2 :: r2 =>
                  if (224 <=? b0) && (b0 <=? 239) then
                    if is_cont b1 && is_cont b2 && negb ((b0 =? 224) && (b1 <? 160))
                    then option_map
                           (cons ((b0 - 224) * 4096 + (b1 - 128) * 64 + (b2 - 128)))
                           (decode_utf_8 r2)
                    else None
                  else
                    match r2 with
                    | [] => None
                    | b3 :: r3 =>
                        if (240 <=? b0) && (b0 <=? 244)
                           && is_cont b1 && is_cont b2 && is_cont b3
                           && negb ((b0 =? 240) && (b1 <? 144))
                           && negb ((b0 =? 244) && (143 <? b1))
                        then option_map
                               (cons ((b0 - 240) * 262144 + (b1 - 128) * 4096
                                      + (b2 - 128) * 64 + (b3 - 128)))
                               (decode_utf_8 r3)
                        else None
                    end
              end
        end
  end.

(** The 16-bit units of a byte string. *)
Fixpoint units_16 (big_endian : bool) (b : list N) : option (list N) :=
  match b with
  | [] => Some []
  | [_] => None
  | x :: y :: r =>
      option_map (cons (if big_endian then x * 256 + y else y * 256 + x))
                 (units_16 big_endian r)
  end.

(** A high surrogate followed by a low one is one character; a surrogate on
    its own passes ([surrogatepass]). *)
Fixpoint pair_surrogates (u : list N) : pystr :=
  match u with
  | [] => []
  | h :: r =>
      match r with
      | l :: r' =>
          if is_high_surrogate h && is_low_surrogate l
          then 65536 + ((h - 55296) * 1024 + (l - 56320)) :: pair_surrogates r'
          else h :: pair_surrogates r
      | [] => [h]
      end
  end.

Definition decode_utf_16 (big_endian : bool) (b : list N) : option pystr :=
  option_map pair_surrogates (units_16 big_endian b).

Fixpoint decode_utf_32 (big_endian : bool) (b : list N) : option pystr :=
  match b with
  | [] => Some []
  | x :: y :: z :: w :: r =>
      let c := if big_endian
               then ((x * 256 + y) * 256 + z) * 256 + w
               else ((w * 256 + z) * 256 + y) * 256 + x in
      if c <=? 1114111 then option_map (cons c) (decode_utf_32 big_endian r)
      else None
  | _ => None
  end.

(** [b.decode(enc, 'surrogatepass')] *)
Definition bytes_decode (enc : encoding) (b : list N) : option pystr :=
  match enc with
  | utf_8 => decode_utf_8 b
  | utf_8_sig => decode_utf_8 (skipn 3 b)
  | utf_16_be => decode_utf_16 true b
  | utf_16_le => decode_utf_16 false b
  | utf_16 => decode_utf_16 (starts_with [254; 255] b) (skipn 2 b)
  | utf_32_be => decode_utf_32 true b
  | utf_32_le => decode_utf_32 false b
  | utf_32 => decode_utf_32 (starts_with [0; 0; 254; 255] b) (skipn 4 b)
  end.

(** [json.loads(s)] *)
Definition loads (s : pyobj) : result pyobj :=
  match s with
  | PyStr text =>
      match text with
      | 65279 :: _ => Raise JSONDecodeError       (* a byte order mark *)
      | _ => decode text
      end
  | PyBytes b =>
      let raw := map Byte.to_N b in
      match bytes_decode (detect_encoding raw) raw with
      | Some text => decode text
      | None => Raise UnicodeDecodeError
      end
  | _ => Raise TypeError
  end.

Close Scope N_scope.

End Json.

(* ------------------------------------------------------------------ *)
(** ** Stand-ins for the services, to run the program on concrete inputs *)

Module Reference.

Open Scope N_scope.

(** A few rows of the Unicode compatibility decomposition. *)
Definition decompose (c : codepoint) : pystr :=
  match c with
  | 224 => [97; 768]       (* a with grave *)
  | 233 => [101; 769]      (* e with acute *)
  | 252 => [117; 776]      (* u with diaeresis *)
  | 8482 => [84; 77]       (* trade mark sign *)
  | 64257 => [102; 105]    (* ligature fi *)
  | _ => [c]
  end.

Definition nfkd (s : pystr) : pystr := flat_map decompose s.

Close Scope N_scope.

(** What the stand-ins answer. *)
Record script : Type := {
  search_answer : pystr;          (* the model's answer to the search prompt *)
  library : list Document;        (* what the retriever finds, for any query *)
  font_installed : bool           (* whether DejaVuSans.ttf can be loaded *)
}.

Fixpoint last_text (t : trace) (acc : pystr) : pystr :=
  match t with
  | [] => acc
  | Fpdf (multi_cell _ _ txt) None :: t' => last_text t' txt
  | _ :: t' => last_text t' acc
  end.

Definition env (sc : script) : Env := {|
  json_loads := Json.loads;
  py_format := fun _ => str "<object>";
  normalize_NFKD := nfkd;
  llm_answer := fun _ _ p =>
    match p with
    | search_prompt _ => Ok (search_answer sc)
    | summary_prompt doc _ => Ok (str "about " ++ Title doc)
    | writer_prompt _ _ _ => Ok (str "REPORT")
    end;
  arxiv_docs := fun _ _ _ => Ok (library sc);
  fpdf_raises := fun _ c =>
    match c with
    | add_font _ _ _ _ =>
        if font_installed sc then None
        else Some (ServiceError "TTF Font file not found")
    | _ => None
    end;
  fpdf_document := fun t _ => Ok (inl (str "%PDF-1.3 " ++ last_text t []))
|}.

Definition paper (n : N) : Document :=
  {| page_content := str "abstract";
     Entry_ID := str "http://arxiv.org/abs/" ++ [48 + n]%N;
     Title := str "Paper " ++ [48 + n]%N |}.

Definition llm : GoogleGenerativeAI :=
  {| model := str "gemini-1.5-flash"; google_api_key := str "key";
     temperature := (8 # 10)%Q |}.

End Reference.

(* ================================================================== *)
(** * Vocabulary of the statements *)

(* ------------------------------------------------------------------ *)
(** ** Counting what [join] and [flatten_list] produce *)

Definition total_length (xs : list pystr) : nat :=
  list_sum (map (@List.length codepoint) xs).

(** Separators the inner joins insert, and the number of empty groups. *)
Definition inner_separators (nested : list (list pystr)) : nat :=
  list_sum (map (fun g => pred (List.length g)) nested).

Definition empty_groups (nested : list (list pystr)) : nat :=
  List.length (filter (fun g => match g with [] => true | _ => false end) nested).

(* ------------------------------------------------------------------ *)
(** ** Traces *)

Definition extends {A} (m : M A) : Prop :=
  forall t, exists new, snd (m t) = t ++ new.

(** The computation starts by adding the events [es]. *)
Definition starts_with {A} (m : M A) (t : trace) (es : list event) : Prop :=
  exists rest, snd (m t) = t ++ es ++ rest.

(** The model calls of one query, one per document and answer. *)
Definition summary_calls (llm : GoogleGenerativeAI) (question : pyobj)
    (answered : list (Document * pystr)) : list event :=
  map (fun dx => Generate llm (summary_prompt (fst dx) question) (Ok (snd dx)))
      answered.

(* ------------------------------------------------------------------ *)
(** ** The PDF library *)

(** The two calls that load the Unicode font. *)
Definition load_dejavu : fpdf_call := add_font "DejaVu" EmptyString "DejaVuSans.ttf" true.
Definition select_dejavu : fpdf_call := set_font "DejaVu" 12.
Definition select_helvetica : fpdf_call := set_font "Helvetica" 12.

Definition unicode_font_call (c : fpdf_call) : bool :=
  match c with
  | add_font _ _ _ _ => true
  | set_font family _ => String.eqb family "DejaVu"
  | _ => false
  end.

Definition document_nonempty (d : pystr + list byte) : Prop :=
  match d with
  | inl s => s <> []
  | inr b => b <> []
  end.

(** What the theorems on [generate_pdf] ask of the PDF library: only
    loading the Unicode font can fail, it fails with an [Exception], and a
    document is never empty (it starts with its header). *)
Record fpdf_well_behaved (E : Env) : Prop := {
  core_calls_return :
    forall h c, unicode_font_call c = false -> fpdf_raises E h c = None;
  font_errors_are_exceptions :
    forall h c e, fpdf_raises E h c = Some e -> is_Exception e = true;
  document_has_content :
    forall h, exists d, fpdf_document E h "S" = Ok d /\ document_nonempty d
}.

(** What [generate_pdf] does before it touches a font. *)
Definition pdf_setup : list event :=
  [Fpdf FPDF_init None; Fpdf add_page None;
   Fpdf (set_auto_page_break true 15) None].

(** The bytes [generate_pdf] returns for a document. *)
Definition pdf_bytes_of (d : pystr + list byte) : list byte :=
  match d with
  | inl s => encode_latin1_replace s
  | inr b => b
  end.

(** How the font was chosen in a run that started at [t]: the events of the
    choice and the text that is laid out. *)
Inductive font_choice (E : Env) (t : trace) (report_text : pystr)
  : list event -> pystr -> Prop :=
| unicode_font :
    fpdf_raises E (t ++ pdf_setup) load_dejavu = None ->
    fpdf_raises E (t ++ pdf_setup ++ [Fpdf load_dejavu None]) select_dejavu = None ->
    font_choice E t report_text
      [Fpdf load_dejavu None; Fpdf select_dejavu None]
      report_text
| fallback_font_not_loaded (e : exn) :
    fpdf_raises E (t ++ pdf_setup) load_dejavu = Some e ->
    font_choice E t report_text
      [Fpdf load_dejavu (Some e); Fpdf select_helvetica None]
      (filter is_ascii (normalize_NFKD E report_text))
| fallback_font_not_selected (e : exn) :
    fpdf_raises E (t ++ pdf_setup) load_dejavu = None ->
    fpdf_raises E (t ++ pdf_setup ++ [Fpdf load_dejavu None]) select_dejavu = Some e ->
    font_choice E t report_text
      [Fpdf load_dejavu None; Fpdf select_dejavu (Some e); Fpdf select_helvetica None]
      (filter is_ascii (normalize_NFKD E report_text)).

Section Vocabulary.

Variable E : Env.

(** The error [parse_json] writes on the page. *)
Definition decode_error_message (raw_output : pyobj) : event :=
  Streamlit (error (str "Error decoding JSON. Raw output: " ++ format E raw_output)).

(** The end of [generate_pdf]: laying out the text and encoding the
    document. *)
Definition render (content : pystr) : M (list byte) :=
  fpdf E (multi_cell 0 10 content) ;;
  pdf_output <- output E "S" ;;
  ret (pdf_bytes_of pdf_output).

(** The [try] statement of [generate_pdf], as a computation of its own. *)
Definition choose_font (report_text : pystr) : M pystr :=
  try_except
    (fpdf E load_dejavu ;; fpdf E select_dejavu ;; ret report_text)
    is_Exception
    (fpdf E select_helvetica ;; lift (transliterate E report_text)).

(** The [if st.button(...)] statement of [main]: what [main] does once the
    widgets are drawn. *)
Definition on_button (w : widgets) : M unit :=
  if generate_clicked w then
    match google_api_key_input w with
    | [] => st (error (str "API Key is required."))
    | _ :: _ =>
        match research_topic_input w with
        | [] => st (error (str "Research topic is required."))
        | _ :: _ =>
            report <-
              with_spinner (str "Generating report...")
                (llm <- initialize_llm (google_api_key_input w) ;;
                 retriever <- initialize_retriever ;;
                 create_final_chain E llm retriever (PyStr (research_topic_input w))) ;;
            st (success (str "Report generated!")) ;;
            st (markdown report) ;;
            pdf_bytes <- generate_pdf E report ;;
            st (download_button (str "Download PDF") pdf_bytes
                  "research_report.pdf" "application/pdf")
        end
    end
  else ret tt.

End Vocabulary.

(* ------------------------------------------------------------------ *)
(** ** Scripts for the stand-ins *)

(** A model that answers in prose, a retriever that finds nothing, no font
    file. *)
Definition bare_script : Reference.script :=
  {| Reference.search_answer := str "not json";
     Reference.library := [];
     Reference.font_installed := false |}.

Definition with_font : Reference.script :=
  {| Reference.search_answer := str "not json";
     Reference.library := [Reference.paper 1];
     Reference.font_installed := true |}.

Definition two_papers : Reference.script :=
  {| Reference.search_answer := str "[]";
     Reference.library := map Reference.paper [1; 2]%N;
     Reference.font_installed := false |}.

Definition nothing_found : Reference.script :=
  {| Reference.search_answer := str "Sure! Here are three queries:";
     Reference.library := [];
     Reference.font_installed := false |}.

Definition no_key : widgets :=
  {| google_api_key_input := []; research_topic_input := str "surface codes";
     generate_clicked := true |}.

(* ------------------------------------------------------------------ *)
(** ** Reading a trace *)



Definition is_writer_call (e : event) : bool :=
  match e with
  | Generate _ (writer_prompt _ _ _) _ => true
  | _ => false
  end.

(** The values of JSON that Python cannot iterate over. *)
Definition is_scalar (x : pyobj) : bool :=
  match x with
  | PyNone | PyBool _ | PyInt _ | PyFloat _ => true
  | _ => false
  end.

(** The last event of a run in which a call on the PDF library raised [e]. *)
Definition fpdf_raised_last (e : exn) (t : trace) : Prop :=
  exists h, (exists c, t = h ++ [Fpdf c (Some e)])
            \/ t = h ++ [Fpdf_output "S" (Raise e)].

(** What a Latin-1 encoder with [errors="replace"] keeps of a character. *)
Definition latin1_or_question_mark (c : codepoint) : N :=
  if (c <=? 255)%N then c else 63%N.

(* ------------------------------------------------------------------ *)
(** ** More stand-ins *)

(** A model whose final answer is the empty string. *)
Definition silent_model (E : Env) : Env := {|
  json_loads := json_loads E;
  py_format := py_format E;
  normalize_NFKD := normalize_NFKD E;
  llm_answer := fun h llm p =>
    match p with
    | writer_prompt _ _ _ => Ok []
    | _ => llm_answer E h llm p
    end;
  arxiv_docs := arxiv_docs E;
  fpdf_raises := fpdf_raises E;
  fpdf_document := fpdf_document E
|}.

(** A retriever that cannot be reached. *)
Definition retriever_down (E : Env) : Env := {|
  json_loads := json_loads E;
  py_format := py_format E;
  normalize_NFKD := normalize_NFKD E;
  llm_answer := llm_answer E;
  arxiv_docs := fun _ _ _ => Raise (ServiceError "arxiv is unreachable");
  fpdf_raises := fpdf_raises E;
  fpdf_document := fpdf_document E
|}.


(** A user who interrupts the program while the font is loaded. *)
Definition interrupted_font (E : Env) : Env := {|
  json_loads := json_loads E;
  py_format := py_format E;
  normalize_NFKD := normalize_NFKD E;
  llm_answer := llm_answer E;
  arxiv_docs := arxiv_docs E;
  fpdf_raises := fun h c =>
    match c with
    | add_font _ _ _ _ => Some KeyboardInterrupt
    | _ => None
    end;
  fpdf_document := fpdf_document E
|}.

(** A PDF library whose [output] fails. *)
Definition output_fails (E : Env) : Env := {|
  json_loads := json_loads E;
  py_format := py_format E;
  normalize_NFKD := normalize_NFKD E;
  llm_answer := llm_answer E;
  arxiv_docs := arxiv_docs E;
  fpdf_raises := fpdf_raises E;
  fpdf_document := fun _ _ => Raise (ServiceError "disk full")
|}.


(** A model that answers the search prompt with the JSON string "ab". *)
Definition string_answer : Reference.script :=
  {| Reference.search_answer := [DQUOTE] ++ str "ab" ++ [DQUOTE];
     Reference.library := [Reference.paper 1];
     Reference.font_installed := false |}.

(** A model that answers the search prompt with a number. *)
Definition number_answer : Reference.script :=
  {| Reference.search_answer := str "3";
     Reference.library := [Reference.paper 1];
     Reference.font_installed := false |}.

(** A model that answers with three queries in JSON, and a retriever that
    finds nothing. *)
Definition three_queries_nothing_found : Reference.script :=
  {| Reference.search_answer :=
       str "[" ++ [DQUOTE] ++ str "a" ++ [DQUOTE] ++ str ", "
       ++ [DQUOTE] ++ str "b" ++ [DQUOTE] ++ str ", "
       ++ [DQUOTE] ++ str "c" ++ [DQUOTE] ++ str "]";
     Reference.library := [];
     Reference.font_installed := false |}.

(** The end of [main]: what it does with the report. *)
Definition deliver (E : Env) (report : pystr) : M unit :=
  st (success (str "Report generated!")) ;;
  st (markdown report) ;;
  pdf_bytes <- generate_pdf E report ;;
  st (download_button (str "Download PDF") pdf_bytes
        "research_report.pdf" "application/pdf").

(** The client [main] constructs for a key, and the trace at the moment
    [main] invokes the final chain. *)
Definition client (w : widgets) : GoogleGenerativeAI :=
  {| model := str "gemini-1.5-flash";
     google_api_key := google_api_key_input w;
     temperature := (8 # 10)%Q |}.

Definition before_chain (w : widgets) (t : trace) : trace :=
  t ++ page_head
    ++ [Streamlit (spinner_enter (str "Generating report..."));
        New_llm (client w); New_retriever ArxivRetriever_default].

Definition press (key topic : string) : widgets :=
  {| google_api_key_input := str key; research_topic_input := str topic;
     generate_clicked := true |}.

(* ================================================================== *)
(** * Properties *)

(* ------------------------------------------------------------------ *)
(** ** Joining and flattening *)

Lemma join_cons2 (sep x y : pystr) (rest : list pystr) :
  join sep (x :: y :: rest) = x ++ sep ++ join sep (y :: rest).
Proof. reflexivity. Qed.

Lemma length_join (sep : pystr) (xs : list pystr) :
  List.length (join sep xs)
  = total_length xs + List.length sep * pred (List.length xs).
Proof.
  induction xs as [|x [|y rest] IH].
  - simpl. lia.
  - unfold total_length. simpl. lia.
  - rewrite join_cons2, !length_app, IH.
    unfold total_length. simpl. lia.
Qed.

Lemma join_app (sep : pystr) (xs ys : list pystr) :
  xs <> [] -> ys <> [] ->
  join sep (xs ++ ys) = join sep xs ++ sep ++ join sep ys.
Proof.
  intros Hx Hy. induction xs as [|x [|x' xs'] IH]; [congruence| |].
  - destruct ys as [|y ys']; [congruence|]. reflexivity.
  - change ((x :: x' :: xs') ++ ys) with (x :: (x' :: xs') ++ ys).
    change ((x' :: xs') ++ ys) with (x' :: xs' ++ ys) at 1.
    rewrite join_cons2.
    change (x' :: xs' ++ ys) with ((x' :: xs') ++ ys).
    rewrite IH by discriminate.
    rewrite join_cons2, <- !app_assoc. reflexivity.
Qed.

Lemma total_length_app (xs ys : list pystr) :
  total_length (xs ++ ys) = total_length xs + total_length ys.
Proof. unfold total_length. now rewrite map_app, list_sum_app. Qed.

Lemma separators_count (nested : list (list pystr)) :
  inner_separators nested + List.length nested
  = List.length (List.concat nested) + empty_groups nested.
Proof.
  unfold inner_separators, empty_groups.
  induction nested as [|g rest IH]; [reflexivity|].
  simpl. rewrite length_app. destruct g; simpl in *; lia.
Qed.

Lemma total_length_inner_joins (sep : pystr) (nested : list (list pystr)) :
  total_length (map (join sep) nested)
  = total_length (List.concat nested) + List.length sep * inner_separators nested.
Proof.
  unfold inner_separators.
  induction nested as [|g rest IH].
  - unfold total_length. simpl. lia.
  - simpl. rewrite total_length_app. unfold total_length in *. simpl.
    rewrite IH, length_join. unfold total_length. lia.
Qed.

Lemma empty_groups_pos (nested : list (list pystr)) :
  In [] nested -> 0 < empty_groups nested.
Proof.
  unfold empty_groups. induction nested as [|g rest IH]; simpl; [tauto|].
  intros [->|H]; simpl; [lia|].
  destruct g; simpl; auto with arith.
Qed.

Lemma Forall_nonempty_dec (nested : list (list pystr)) :
  Forall (fun g => g <> []) nested \/ In [] nested.
Proof.
  induction nested as [|g rest [IH|IH]].
  - left. constructor.
  - destruct g.
    + right. now left.
    + left. constructor; [discriminate|assumption].
  - right. now right.
Qed.

Lemma flatten_nonempty_groups (nested : list (list pystr)) :
  Forall (fun g => g <> []) nested ->
  flatten_list nested = join double_newline (List.concat nested).
Proof.
  unfold flatten_list.
  induction nested as [|g [|g' rest] IH]; intros H.
  - reflexivity.
  - simpl. now rewrite app_nil_r.
  - inversion H as [|? ? Hg Hrest]; subst.
    change (map (fun sublist => join double_newline sublist) (g :: g' :: rest))
      with (join double_newline g
            :: map (fun sublist => join double_newline sublist) (g' :: rest)).
    change (join double_newline
              (join double_newline g
               :: map (fun sublist => join double_newline sublist) (g' :: rest)))
      with (join double_newline g ++ double_newline
            ++ join double_newline
                 (map (fun sublist => join double_newline sublist) (g' :: rest))).
    rewrite IH by assumption.
    change (List.concat (g :: g' :: rest)) with (g ++ List.concat (g' :: rest)).
    rewrite join_app; [reflexivity|assumption|].
    inversion Hrest; subst. simpl. destruct g'; [congruence|discriminate].
Qed.

(** C2. [flatten_list([])] is the empty string, [flatten_list([["a","b"]])]
    and [flatten_list([["a"],["b"]])] are both "a", two newlines, "b"; in
    general the strings of a group are joined by two newlines and so are
    the groups, as the equations of [join] and [flatten_list] spell out. *)
Theorem flatten_list_joins :
  flatten_list [] = [] /\
  flatten_list [[str "a"; str "b"]] = str "a" ++ [LF; LF] ++ str "b" /\
  flatten_list [[str "a"]; [str "b"]] = str "a" ++ [LF; LF] ++ str "b" /\
  (forall g, flatten_list [g] = join [LF; LF] g) /\
  (forall g g' rest,
     flatten_list (g :: g' :: rest)
     = join [LF; LF] g ++ [LF; LF] ++ flatten_list (g' :: rest)) /\
  (join [LF; LF] [] = [] /\
   (forall x, join [LF; LF] [x] = x) /\
   (forall x y rest,
      join [LF; LF] (x :: y :: rest) = x ++ [LF; LF] ++ join [LF; LF] (y :: rest))).
Proof.
  repeat split; reflexivity.
Qed.

(** C8 does not hold as stated: the single group [[]] is an empty inner
    list, and the two definitions agree on [[[]]]. *)
Lemma flatten_list_single_empty_group :
  In [] [@nil pystr] /\
  flatten_list [[]] = join double_newline (List.concat [[]]).
Proof. split; [now left|reflexivity]. Qed.

(** C8, amended.  When every inner list is non-empty, [flatten_list] is
    the join of the concatenation; [flatten_list([[],["a"]])] is two
    newlines and "a"; and the two definitions differ exactly on the inputs
    that contain an empty inner list and are not [[[]]]. *)
Theorem flatten_list_vs_concat (nested : list (list pystr)) :
  (Forall (fun g => g <> []) nested ->
   flatten_list nested = join double_newline (List.concat nested)) /\
  flatten_list [[]; [str "a"]] = [LF; LF] ++ str "a" /\
  (flatten_list nested <> join double_newline (List.concat nested)
   <-> In [] nested /\ nested <> [[]]).
Proof.
  split; [apply flatten_nonempty_groups|]. split; [reflexivity|].
  split.
  - intros Hne. destruct (Forall_nonempty_dec nested) as [Hall|Hin].
    + exfalso. apply Hne. now apply flatten_nonempty_groups.
    + split; [assumption|]. intros ->. apply Hne. reflexivity.
  - intros [Hin Hnot] Heq.
    apply (f_equal (@List.length codepoint)) in Heq.
    unfold flatten_list in Heq.
    rewrite !length_join, total_length_inner_joins in Heq.
    rewrite length_map in Heq.
    pose proof (separators_count nested) as Hc.
    pose proof (empty_groups_pos nested Hin) as Hm.
    change (List.length double_newline) with 2 in Heq.
    assert (Hk : List.length nested = 1 /\ List.length (List.concat nested) = 0) by lia.
    destruct Hk as [Hk Hn].
    destruct nested as [|g [|g' rest]]; try discriminate.
    simpl in Hn. rewrite app_nil_r in Hn.
    destruct g; [now apply Hnot|discriminate].
Qed.

(* ------------------------------------------------------------------ *)
(** ** The JSON parsing helper *)

Section ParseJson.

Variable E : Env.

Lemma parse_json_ok (x v : pyobj) (t : trace) :
  json_loads E x = Ok v -> parse_json E x t = (Ok v, t).
Proof.
  intros H. unfold parse_json, try_except, lift. now rewrite H.
Qed.

Lemma parse_json_decode_error (x : pyobj) (t : trace) :
  json_loads E x = Raise JSONDecodeError ->
  parse_json E x t = (Ok (PyList []), t ++ [decode_error_message E x]).
Proof.
  intros H. unfold parse_json, try_except, lift. now rewrite H.
Qed.

Lemma parse_json_other_error (x : pyobj) (e : exn) (t : trace) :
  json_loads E x = Raise e -> is_JSONDecodeError e = false ->
  parse_json E x t = (Raise e, t).
Proof.
  intros H He. unfold parse_json, try_except, lift. now rewrite H, He.
Qed.

Lemma trace_grew (t : trace) (e : event) : t ++ [e] <> t.
Proof.
  intros H. apply (f_equal (@List.length event)) in H.
  rewrite length_app in H. simpl in H. lia.
Qed.

End ParseJson.

(** C3. On a string that [json.loads] decodes, [parse_json] returns the
    decoded value, whatever its shape, and reports nothing; on a string for
    which [json.loads] raises a JSON decode error it reports the raw text
    and returns the empty list. *)
Theorem parse_json_on_strings (E : Env) (s : pystr) (t : trace) :
  (forall v, json_loads E (PyStr s) = Ok v ->
             parse_json E (PyStr s) t = (Ok v, t)) /\
  (json_loads E (PyStr s) = Raise JSONDecodeError ->
   parse_json E (PyStr s) t
   = (Ok (PyList []),
      t ++ [Streamlit (error (str "Error decoding JSON. Raw output: " ++ s))])).
Proof.
  split.
  - intros v. apply parse_json_ok.
  - apply (parse_json_decode_error E (PyStr s)).
Qed.

(** C3 on the decoder of CPython: a JSON object and a JSON number come
    back as they are, and the strings "not json" and "[1,2" and the empty
    string give the empty list. *)
Lemma parse_json_on_strings_examples :
  let E := Reference.env bare_script in
  let parse s := fst (parse_json E (PyStr (str s)) []) in
  parse "{ }"%string = Ok (PyDict []) /\
  parse "[1, [2.5, null]]"%string
  = Ok (PyList [PyInt 1; PyList [PyFloat (str "2.5"); PyNone]]) /\
  parse "17"%string = Ok (PyInt 17) /\
  parse "not json"%string = Ok (PyList []) /\
  parse "[1,2"%string = Ok (PyList []) /\
  parse EmptyString = Ok (PyList []).
Proof.
  cbv zeta.
  split.
  { rewrite (proj1 (parse_json_on_strings (Reference.env bare_script) (str "{ }") [])
               (PyDict [])); reflexivity. }
  split.
  { rewrite (proj1 (parse_json_on_strings (Reference.env bare_script)
                      (str "[1, [2.5, null]]") [])
               (PyList [PyInt 1; PyList [PyFloat (str "2.5"); PyNone]]));
      reflexivity. }
  split.
  { rewrite (proj1 (parse_json_on_strings (Reference.env bare_script) (str "17") [])
               (PyInt 17)); reflexivity. }
  split.
  { rewrite (proj2 (parse_json_on_strings (Reference.env bare_script)
                      (str "not json") [])); reflexivity. }
  split.
  { rewrite (proj2 (parse_json_on_strings (Reference.env bare_script) (str "[1,2") []));
      reflexivity. }
  rewrite (proj2 (parse_json_on_strings (Reference.env bare_script) (str EmptyString) []));
    reflexivity.
Defined.

(** C9 does not hold as stated: [json.loads] accepts [bytes], so on the
    bytes [nope], which are not a string, no exception reaches the caller
    and the helper returns the empty list. *)
Lemma parse_json_bytes_reach_fallback :
  let x := PyBytes (list_byte_of_string "nope") in
  (forall s, x <> PyStr s) /\
  fst (parse_json (Reference.env bare_script) x []) = Ok (PyList []).
Proof.
  split; [discriminate|reflexivity].
Qed.

(** C9, amended.  [parse_json] catches JSON decode errors only: any other
    exception of [json.loads] reaches the caller and nothing is reported;
    the helper reports and falls back to the empty list exactly when
    [json.loads] raises a JSON decode error, on a string or on bytes. *)
Theorem parse_json_catches_decode_errors_only (E : Env) (x : pyobj) (t : trace) :
  (forall e, json_loads E x = Raise e -> is_JSONDecodeError e = false ->
             parse_json E x t = (Raise e, t)) /\
  (json_loads E x = Raise JSONDecodeError <->
   parse_json E x t = (Ok (PyList []), t ++ [decode_error_message E x])).
Proof.
  split; [intros e; apply parse_json_other_error|]. split.
  - apply parse_json_decode_error.
  - intros H. destruct (json_loads E x) as [v|e] eqn:Hl.
    + rewrite (parse_json_ok E x t Hl) in H.
      inversion H as [[Hv Ht]]. symmetry in Ht. now apply trace_grew in Ht.
    + destruct e; try reflexivity;
        rewrite (parse_json_other_error E x t Hl eq_refl) in H; discriminate.
Qed.

(** C9 on the decoder of CPython: [None] is rejected with a [TypeError],
    which [parse_json] lets through. *)
Lemma parse_json_None_raises :
  parse_json (Reference.env bare_script) PyNone [] = (Raise TypeError, []).
Proof.
  apply (proj1 (parse_json_catches_decode_errors_only
                  (Reference.env bare_script) PyNone []) TypeError);
    reflexivity.
Defined.

(* ------------------------------------------------------------------ *)
(** ** The ASCII transliteration of the fallback path *)

Lemma ascii_byte (c : codepoint) :
  is_ascii c = true -> exists b, Byte.of_N c = Some b /\ Byte.to_N b = c.
Proof.
  unfold is_ascii. intros H. apply N.ltb_lt in H.
  destruct (Byte.of_N c) as [b|] eqn:Hb.
  - exists b. split; [reflexivity|]. now apply Byte.to_of_N.
  - apply Byte.of_N_None_iff in Hb. lia.
Qed.

Lemma encode_ascii_ignore_bytes (s : pystr) :
  map Byte.to_N (encode_ascii_ignore s) = filter is_ascii s /\
  forallb (fun c => is_ascii (Byte.to_N c)) (encode_ascii_ignore s) = true.
Proof.
  unfold encode_ascii_ignore.
  induction s as [|c s [IHm IHf]]; [split; reflexivity|].
  simpl. destruct (is_ascii c) eqn:Hc.
  - destruct (ascii_byte c Hc) as [b [Hb Hbc]]. rewrite Hb. simpl.
    rewrite IHm, IHf, Hbc, Hc. split; reflexivity.
  - simpl. now split.
Qed.

Lemma transliterate_filter (E : Env) (s : pystr) :
  transliterate E s = Ok (filter is_ascii (normalize_NFKD E s)).
Proof.
  unfold transliterate, decode_ascii.
  destruct (encode_ascii_ignore_bytes (normalize_NFKD E s)) as [Hm Hf].
  now rewrite Hf, Hm.
Qed.

Lemma filter_ascii_id (s : pystr) :
  forallb is_ascii s = true -> filter is_ascii s = s.
Proof.
  induction s as [|c s IH]; [reflexivity|].
  simpl. intros H. apply andb_true_iff in H. destruct H as [Hc Hs].
  now rewrite Hc, IH.
Qed.

Lemma filter_ascii_all (s : pystr) : forallb is_ascii (filter is_ascii s) = true.
Proof.
  induction s as [|c s IH]; [reflexivity|].
  simpl. destruct (is_ascii c) eqn:Hc; simpl; [now rewrite Hc|assumption].
Qed.

Lemma reference_nfkd_ascii (s : pystr) :
  forallb is_ascii s = true -> Reference.nfkd s = s.
Proof.
  unfold Reference.nfkd.
  induction s as [|c s IH]; [reflexivity|].
  simpl. intros H. apply andb_true_iff in H. destruct H as [Hc Hs].
  rewrite IH by assumption.
  unfold is_ascii in Hc. apply N.ltb_lt in Hc.
  assert (Hd : Reference.decompose c = [c]).
  { unfold Reference.decompose.
    repeat match goal with
           | |- context [match ?p with _ => _ end] => destruct p; try lia; try reflexivity
           end. }
  now rewrite Hd.
Qed.

(** C10. The transliteration never fails and its output, the ASCII
    characters of the NFKD form, is made of ASCII characters only; as NFKD
    leaves ASCII text unchanged, transliterating the output again returns
    it unchanged. *)
Theorem transliterate_ascii_idempotent (E : Env) (s : pystr) :
  exists out,
    transliterate E s = Ok out /\
    out = filter is_ascii (normalize_NFKD E s) /\
    forallb is_ascii out = true /\
    ((forall u, forallb is_ascii u = true -> normalize_NFKD E u = u) ->
     transliterate E out = Ok out).
Proof.
  exists (filter is_ascii (normalize_NFKD E s)).
  split; [apply transliterate_filter|]. split; [reflexivity|].
  split; [apply filter_ascii_all|].
  intros NFKD_ascii.
  rewrite transliterate_filter, NFKD_ascii by apply filter_ascii_all.
  now rewrite filter_ascii_id by apply filter_ascii_all.
Qed.

(** C10 on a word with an accent: "caf" and e with an acute accent
    (U+00E9) becomes "cafe", and "cafe" stays "cafe". *)
Lemma transliterate_cafe :
  transliterate (Reference.env bare_script) (str "caf" ++ [233%N]) = Ok (str "cafe") /\
  forallb is_ascii (str "cafe") = true /\
  transliterate (Reference.env bare_script) (str "cafe") = Ok (str "cafe").
Proof.
  destruct (transliterate_ascii_idempotent (Reference.env bare_script)
              (str "caf" ++ [233%N])) as [out [Hrun [Hout [Hascii Hagain]]]].
  assert (Hcafe : out = str "cafe") by (rewrite Hout; reflexivity).
  rewrite Hcafe in Hrun, Hascii, Hagain.
  split; [exact Hrun|]. split; [exact Hascii|].
  apply Hagain. exact reference_nfkd_ascii.
Defined.

(* ------------------------------------------------------------------ *)
(** ** The PDF renderer *)

Section GeneratePdf.

Variable E : Env.
Hypothesis WB : fpdf_well_behaved E.

Lemma fpdf_returns (c : fpdf_call) (t : trace) :
  fpdf_raises E t c = None -> fpdf E c t = (Ok tt, t ++ [Fpdf c None]).
Proof. intros H. unfold fpdf. now rewrite H. Qed.

Lemma fpdf_raised (c : fpdf_call) (e : exn) (t : trace) :
  fpdf_raises E t c = Some e -> fpdf E c t = (Raise e, t ++ [Fpdf c (Some e)]).
Proof. intros H. unfold fpdf. now rewrite H. Qed.

Lemma fpdf_core (c : fpdf_call) (t : trace) :
  unicode_font_call c = false -> fpdf E c t = (Ok tt, t ++ [Fpdf c None]).
Proof. intros H. apply fpdf_returns. now apply (core_calls_return WB). Qed.

Lemma pdf_bytes_nonempty (d : pystr + list byte) :
  document_nonempty d -> pdf_bytes_of d <> [].
Proof.
  destruct d as [s|b]; simpl; [|auto].
  destruct s; [congruence|discriminate].
Qed.

Lemma render_ok (content : pystr) (t : trace) :
  exists d,
    render E content t
    = (Ok (pdf_bytes_of d),
       t ++ [Fpdf (multi_cell 0 10 content) None; Fpdf_output "S" (Ok d)]) /\
    document_nonempty d.
Proof.
  destruct (document_has_content WB (t ++ [Fpdf (multi_cell 0 10 content) None]))
    as [d [Hd Hne]].
  exists d. split; [|assumption].
  unfold render, bind. rewrite fpdf_core by reflexivity.
  unfold output, ret. rewrite Hd, <- app_assoc. reflexivity.
Qed.

Lemma generate_pdf_steps (c : codepoint) (rest : pystr) :
  generate_pdf E (c :: rest)
  = (fpdf E FPDF_init ;; fpdf E add_page ;; fpdf E (set_auto_page_break true 15) ;;
     content <- choose_font E (c :: rest) ;; render E content).
Proof. reflexivity. Qed.

Lemma choose_font_ok (report_text : pystr) (t : trace) :
  exists events content,
    choose_font E report_text (t ++ pdf_setup)
    = (Ok content, t ++ pdf_setup ++ events) /\
    font_choice E t report_text events content.
Proof.
  unfold choose_font, try_except, bind.
  destruct (fpdf_raises E (t ++ pdf_setup) load_dejavu) as [e|] eqn:Hload.
  - exists [Fpdf load_dejavu (Some e); Fpdf select_helvetica None],
           (filter is_ascii (normalize_NFKD E report_text)).
    split; [|now apply fallback_font_not_loaded].
    rewrite (fpdf_raised _ _ Hload).
    rewrite (font_errors_are_exceptions WB _ _ Hload).
    rewrite fpdf_core by reflexivity.
    unfold lift. rewrite transliterate_filter, <- !app_assoc. reflexivity.
  - rewrite (fpdf_returns _ _ Hload).
    destruct (fpdf_raises E (t ++ pdf_setup ++ [Fpdf load_dejavu None]) select_dejavu)
      as [e|] eqn:Hsel.
    + exists [Fpdf load_dejavu None; Fpdf select_dejavu (Some e);
              Fpdf select_helvetica None],
             (filter is_ascii (normalize_NFKD E report_text)).
      split; [|now apply fallback_font_not_selected].
      rewrite <- app_assoc, (fpdf_raised _ _ Hsel).
      rewrite (font_errors_are_exceptions WB _ _ Hsel).
      rewrite fpdf_core by reflexivity.
      unfold lift. rewrite transliterate_filter, <- !app_assoc. reflexivity.
    + exists [Fpdf load_dejavu None; Fpdf select_dejavu None], report_text.
      split; [|now apply unicode_font].
      rewrite <- app_assoc, (fpdf_returns _ _ Hsel).
      unfold ret. rewrite <- !app_assoc. reflexivity.
Qed.

Lemma generate_pdf_run (report_text : pystr) (t : trace) :
  report_text <> [] ->
  exists events content d,
    generate_pdf E report_text t
    = (Ok (pdf_bytes_of d),
       t ++ pdf_setup ++ events
         ++ [Fpdf (multi_cell 0 10 content) None; Fpdf_output "S" (Ok d)]) /\
    font_choice E t report_text events content /\
    document_nonempty d.
Proof.
  intros Hne. destruct report_text as [|c rest]; [congruence|].
  rewrite generate_pdf_steps.
  destruct (choose_font_ok (c :: rest) t) as [events [content [Hfont Hchoice]]].
  destruct (render_ok content (t ++ pdf_setup ++ events)) as [d [Hrender Hd]].
  exists events, content, d. split; [|split; assumption].
  unfold bind at 1. rewrite fpdf_core by reflexivity.
  unfold bind at 1. rewrite fpdf_core by reflexivity.
  unfold bind at 1. rewrite fpdf_core by reflexivity.
  rewrite <- !app_assoc. change ([Fpdf FPDF_init None] ++ [Fpdf add_page None]
    ++ [Fpdf (set_auto_page_break true 15) None]) with pdf_setup.
  unfold bind. rewrite Hfont, Hrender, <- !app_assoc. reflexivity.
Qed.

End GeneratePdf.

(** C4. On the empty string [generate_pdf] raises a [ValueError] before it
    makes any call on the PDF library; on every non-empty string it returns
    a non-empty byte sequence, the PDF library doing its part. *)
Theorem generate_pdf_empty_raises_nonempty_returns (E : Env) :
  (forall t, generate_pdf E [] t
             = (Raise (ValueError "No report content provided."), t)) /\
  (fpdf_well_behaved E ->
   forall report_text t, report_text <> [] ->
     exists pdf_bytes t',
       generate_pdf E report_text t = (Ok pdf_bytes, t') /\ pdf_bytes <> []).
Proof.
  split; [reflexivity|].
  intros WB report_text t Hne.
  destruct (generate_pdf_run WB t Hne) as [events [content [d [Hrun [_ Hd]]]]].
  eexists _, _. split; [exact Hrun|]. now apply pdf_bytes_nonempty.
Qed.

(** C5. A non-empty report is laid out unchanged when the Unicode font
    loads; when loading it raises, the exception is caught, Helvetica is
    selected and the text laid out is the NFKD form of the report without
    its non-ASCII characters.  Either way [generate_pdf] returns, the PDF
    library doing its part. *)
Theorem generate_pdf_font_paths (E : Env) (WB : fpdf_well_behaved E)
    (report_text : pystr) (t : trace) (Hne : report_text <> []) :
  exists events content d,
    generate_pdf E report_text t
    = (Ok (pdf_bytes_of d),
       t ++ pdf_setup ++ events
         ++ [Fpdf (multi_cell 0 10 content) None; Fpdf_output "S" (Ok d)]) /\
    font_choice E t report_text events content /\
    (content = report_text \/
     content = filter is_ascii (normalize_NFKD E report_text) /\
     forallb is_ascii content = true /\
     In (Fpdf select_helvetica None) events).
Proof.
  destruct (generate_pdf_run WB t Hne) as [events [content [d [Hrun [Hch Hd]]]]].
  exists events, content, d. split; [exact Hrun|]. split; [exact Hch|].
  destruct Hch.
  - now left.
  - right. split; [reflexivity|]. split; [apply filter_ascii_all|].
    simpl. tauto.
  - right. split; [reflexivity|]. split; [apply filter_ascii_all|].
    simpl. tauto.
Qed.

Lemma reference_fpdf_well_behaved (sc : Reference.script) :
  fpdf_well_behaved (Reference.env sc).
Proof.
  constructor.
  - intros h c Hc. destruct c; try reflexivity; discriminate.
  - intros h c e. simpl. destruct c; try discriminate.
    destruct (Reference.font_installed sc); [discriminate|].
    intros H. now inversion H.
  - intros h. eexists. split; [reflexivity|]. discriminate.
Qed.

(** C4 on the word "cafe" with an acute accent, the font file missing. *)
Lemma generate_pdf_cafe_returns_bytes :
  exists pdf_bytes t',
    generate_pdf (Reference.env bare_script) (str "caf" ++ [233%N]) []
    = (Ok pdf_bytes, t') /\ pdf_bytes <> [].
Proof.
  apply (proj2 (generate_pdf_empty_raises_nonempty_returns (Reference.env bare_script))
           (reference_fpdf_well_behaved bare_script)).
  discriminate.
Defined.

(** C5 on the same word, the font file missing. *)
Lemma generate_pdf_cafe_font_paths :
  exists events content d,
    generate_pdf (Reference.env bare_script) (str "caf" ++ [233%N]) []
    = (Ok (pdf_bytes_of d),
       [] ++ pdf_setup ++ events
          ++ [Fpdf (multi_cell 0 10 content) None; Fpdf_output "S" (Ok d)]) /\
    font_choice (Reference.env bare_script) [] (str "caf" ++ [233%N]) events content /\
    (content = str "caf" ++ [233%N] \/
     content = filter is_ascii
                 (normalize_NFKD (Reference.env bare_script) (str "caf" ++ [233%N])) /\
     forallb is_ascii content = true /\
     In (Fpdf select_helvetica None) events).
Proof.
  apply (generate_pdf_font_paths (reference_fpdf_well_behaved bare_script)).
  discriminate.
Defined.

(** The two paths, run: without the font the text laid out is "cafe", with
    it the accent is kept (byte E9 of Latin-1 in the document). *)
Example generate_pdf_cafe_runs :
  fst (generate_pdf (Reference.env bare_script) (str "caf" ++ [233%N]) [])
  = Ok (list_byte_of_string "%PDF-1.3 cafe") /\
  fst (generate_pdf (Reference.env with_font) (str "caf" ++ [233%N]) [])
  = Ok (list_byte_of_string "%PDF-1.3 caf" ++ [xe9]).
Proof. split; reflexivity. Qed.

(* ------------------------------------------------------------------ *)
(** ** Every computation only adds to the trace *)

Lemma extends_ret {A} (a : A) : extends (ret a).
Proof. intros t. exists []. simpl. now rewrite app_nil_r. Qed.

Lemma extends_raise {A} (e : exn) : extends (@raise A e).
Proof. intros t. exists []. simpl. now rewrite app_nil_r. Qed.

Lemma extends_lift {A} (r : result A) : extends (lift r).
Proof. intros t. exists []. simpl. now rewrite app_nil_r. Qed.

Lemma extends_emit (e : event) : extends (emit e).
Proof. intros t. now exists [e]. Qed.

Lemma extends_bind {A B} (m : M A) (k : A -> M B) :
  extends m -> (forall a, extends (k a)) -> extends (bind m k).
Proof.
  intros Hm Hk t. unfold bind. destruct (Hm t) as [new Hnew].
  destruct (m t) as [[a|e] t']; simpl in Hnew; subst t'.
  - destruct (Hk a (t ++ new)) as [new' Hnew'].
    exists (new ++ new'). now rewrite Hnew', app_assoc.
  - now exists new.
Qed.

Lemma extends_try_except {A} (body handler : M A) (class : exn -> bool) :
  extends body -> extends handler -> extends (try_except body class handler).
Proof.
  intros Hb Hh t. unfold try_except. destruct (Hb t) as [new Hnew].
  destruct (body t) as [[a|e] t']; simpl in Hnew; subst t'.
  - now exists new.
  - destruct (class e).
    + destruct (Hh (t ++ new)) as [new' Hnew'].
      exists (new ++ new'). now rewrite Hnew', app_assoc.
    + now exists new.
Qed.

Lemma extends_mapM {A B} (f : A -> M B) (xs : list A) :
  (forall x, extends (f x)) -> extends (mapM f xs).
Proof.
  intros Hf. induction xs as [|x xs IH]; simpl.
  - apply extends_ret.
  - apply extends_bind; [apply Hf|]. intros y.
    apply extends_bind; [apply IH|]. intros ys. apply extends_ret.
Qed.

Lemma starts_with_bind {A B} (m : M A) (k : A -> M B) (t : trace) (es : list event) :
  starts_with m t es -> (forall a, extends (k a)) -> starts_with (bind m k) t es.
Proof.
  intros [rest Hm] Hk. unfold starts_with, bind.
  destruct (m t) as [[a|e] t']; simpl in Hm; subst t'.
  - destruct (Hk a (t ++ es ++ rest)) as [new Hnew].
    exists (rest ++ new). now rewrite Hnew, <- !app_assoc.
  - now exists rest.
Qed.

Section Extends.

Variable E : Env.

Lemma extends_invoke (llm : GoogleGenerativeAI) (p : prompt) : extends (invoke E llm p).
Proof. intros t. eexists. reflexivity. Qed.

Lemma extends_get_summaries_as_docs (r : ArxivRetriever) (q : pyobj) :
  extends (get_summaries_as_docs E r q).
Proof. intros t. eexists. reflexivity. Qed.

Lemma extends_fpdf (c : fpdf_call) : extends (fpdf E c).
Proof. intros t. eexists. reflexivity. Qed.

Lemma extends_output (dest : string) : extends (output E dest).
Proof. intros t. eexists. reflexivity. Qed.

Lemma extends_with_spinner {A} (text : pystr) (body : M A) :
  extends body -> extends (with_spinner text body).
Proof.
  intros Hb t. unfold with_spinner.
  destruct (Hb (t ++ [Streamlit (spinner_enter text)])) as [new Hnew].
  destruct (body _) as [r t']. simpl in *. subst t'.
  eexists. rewrite <- !app_assoc. reflexivity.
Qed.

Ltac extends_step :=
  first
    [ apply extends_ret | apply extends_raise | apply extends_lift
    | apply extends_emit | apply extends_invoke
    | apply extends_get_summaries_as_docs | apply extends_fpdf
    | apply extends_output
    | apply extends_bind | apply extends_try_except | apply extends_mapM
    | apply extends_with_spinner ].

Ltac extends_auto := repeat (intros; extends_step).

Lemma extends_parse_json (x : pyobj) : extends (parse_json E x).
Proof. unfold parse_json, st. extends_auto. Qed.

Lemma extends_generate_pdf (report_text : pystr) : extends (generate_pdf E report_text).
Proof. unfold generate_pdf. destruct report_text; extends_auto. Qed.

Lemma extends_web_search_chain (r : ArxivRetriever) (llm : GoogleGenerativeAI)
    (q : pyobj) : extends (create_web_search_chain E r llm q).
Proof. unfold create_web_search_chain, create_summary_chain. extends_auto. Qed.

Lemma extends_url_list_chain (r : ArxivRetriever) (q : pyobj) :
  extends (create_url_list_chain E r q).
Proof. unfold create_url_list_chain. extends_auto. Qed.

Lemma extends_final_chain (llm : GoogleGenerativeAI) (r : ArxivRetriever) (q : pyobj) :
  extends (create_final_chain E llm r q).
Proof.
  unfold create_final_chain, create_research_summary_chain,
    create_full_research_chain, create_search_query_chain.
  extends_auto; try apply extends_parse_json; try apply extends_web_search_chain;
    try apply extends_url_list_chain; extends_auto.
Qed.

Lemma extends_main (w : widgets) : extends (main E w).
Proof.
  unfold main, st, initialize_llm, initialize_retriever.
  extends_auto. intros.
  destruct (generate_clicked w); [|apply extends_ret].
  destruct (google_api_key_input w); [apply extends_emit|].
  destruct (research_topic_input w); [apply extends_emit|].
  extends_auto; try apply extends_final_chain; try apply extends_generate_pdf.
Qed.

End Extends.

(* ------------------------------------------------------------------ *)
(** ** The summarization step *)

Lemma summaries_run (E : Env) (llm : GoogleGenerativeAI) (question : pyobj) :
  (forall h doc, exists text,
      llm_answer E h llm (summary_prompt doc question) = Ok text) ->
  forall docs t, exists texts,
    List.length texts = List.length docs /\
    mapM (create_summary_chain E llm question) docs t
    = (Ok (map (fun dx => summary_record (fst dx) (snd dx)) (combine docs texts)),
       t ++ summary_calls llm question (combine docs texts)).
Proof.
  intros Hllm docs. induction docs as [|doc docs IH]; intros t.
  - exists []. split; [reflexivity|]. simpl. unfold ret. now rewrite app_nil_r.
  - destruct (Hllm t doc) as [text Htext].
    destruct (IH (t ++ [Generate llm (summary_prompt doc question) (Ok text)]))
      as [texts [Hlen Hrun]].
    exists (text :: texts). split; [simpl; now rewrite Hlen|].
    simpl. unfold bind at 1. unfold create_summary_chain at 1.
    unfold bind at 1. unfold invoke at 1. rewrite Htext.
    unfold ret at 1. unfold bind at 1. rewrite Hrun.
    unfold ret. rewrite <- app_assoc. reflexivity.
Qed.

(** C6. For a query string the chain asks the retriever once, keeps the
    first ten documents it returns, in its order, asks the model once per
    kept document, and returns for each the string "Title: ", the title,
    two newlines, "SUMMARY: " and the model's text. *)
Theorem web_search_chain_first_ten (E : Env) (retriever : ArxivRetriever)
    (llm : GoogleGenerativeAI) (query : pystr) (t : trace) (found : list Document)
    (Hfound : arxiv_docs E t retriever (PyStr query) = Ok found)
    (Hllm : forall h doc, exists text,
        llm_answer E h llm (summary_prompt doc (PyStr query)) = Ok text) :
  let docs := firstn 10 found in
  exists texts,
    List.length texts = List.length docs /\
    List.length docs <= 10 /\
    create_web_search_chain E retriever llm (PyStr query) t
    = (Ok (map (fun dx => str "Title: " ++ Title (fst dx) ++ [LF; LF]
                          ++ str "SUMMARY: " ++ snd dx)
               (combine docs texts)),
       t ++ Retrieve retriever (PyStr query) (Ok found)
         :: map (fun dx => Generate llm (summary_prompt (fst dx) (PyStr query))
                                    (Ok (snd dx)))
                (combine docs texts)).
Proof.
  intros docs.
  destruct (summaries_run E llm (PyStr query) Hllm docs
              (t ++ [Retrieve retriever (PyStr query) (Ok found)]))
    as [texts [Hlen Hrun]].
  exists texts. split; [assumption|]. split; [apply firstn_le_length|].
  unfold create_web_search_chain, bind, get_summaries_as_docs.
  rewrite Hfound. cbv zeta. fold docs.
  change (mapM (fun u => create_summary_chain E llm (PyStr query) u) docs)
    with (mapM (create_summary_chain E llm (PyStr query)) docs).
  rewrite Hrun, <- app_assoc. reflexivity.
Qed.

(** C6 on a retriever that finds two papers. *)
Lemma web_search_chain_two_papers :
  let E := Reference.env two_papers in
  let docs := firstn 10 (map Reference.paper [1; 2]%N) in
  exists texts,
    List.length texts = List.length docs /\
    List.length docs <= 10 /\
    create_web_search_chain E ArxivRetriever_default Reference.llm
      (PyStr (str "surface code")) []
    = (Ok (map (fun dx => str "Title: " ++ Title (fst dx) ++ [LF; LF]
                          ++ str "SUMMARY: " ++ snd dx)
               (combine docs texts)),
       [] ++ Retrieve ArxivRetriever_default (PyStr (str "surface code"))
               (Ok (map Reference.paper [1; 2]%N))
          :: map (fun dx => Generate Reference.llm
                              (summary_prompt (fst dx) (PyStr (str "surface code")))
                              (Ok (snd dx)))
                 (combine docs texts)).
Proof.
  apply (web_search_chain_first_ten (Reference.env two_papers)
           ArxivRetriever_default Reference.llm (str "surface code") []).
  - reflexivity.
  - intros h doc. eexists. reflexivity.
Defined.

(** Twelve documents found: ten records, the first ten, in order. *)
Example web_search_chain_twelve_papers :
  let sc := {| Reference.search_answer := str "[]";
               Reference.library :=
                 map Reference.paper [0; 1; 2; 3; 4; 5; 6; 7; 8; 9; 10; 11]%N;
               Reference.font_installed := false |} in
  fst (create_web_search_chain (Reference.env sc) ArxivRetriever_default
         Reference.llm (PyStr (str "q")) [])
  = Ok (map (fun n => str "Title: Paper " ++ [48 + n]%N ++ [LF; LF]
                      ++ str "SUMMARY: about Paper " ++ [48 + n]%N)
            [0; 1; 2; 3; 4; 5; 6; 7; 8; 9]%N).
Proof. reflexivity. Qed.

(* ------------------------------------------------------------------ *)
(** ** The report chain when the queries are not JSON *)

Lemma join_head_nonempty (sep x : pystr) (rest : list pystr) :
  x <> [] -> join sep (x :: rest) <> [].
Proof.
  intros Hx. destruct x as [|c x]; [congruence|].
  destruct rest; discriminate.
Qed.

Lemma url_list_text_empty_iff (docs : list Document) :
  url_list_text docs = [] <-> docs = [].
Proof.
  split; [|now intros ->].
  destruct docs as [|d docs]; [reflexivity|].
  unfold url_list_text.
  change (firstn 10 (d :: docs)) with (d :: firstn 9 docs).
  intros H. exfalso. revert H. apply join_head_nonempty. discriminate.
Qed.

(** C1 does not hold as stated: the reference list comes from a retrieval
    for the topic itself, so it is not empty when the queries are not JSON
    and the retriever finds a paper. *)
Lemma final_chain_invalid_json_with_references :
  let E := Reference.env with_font in
  let topic := PyStr (str "quantum error correction") in
  json_loads E (PyStr (Reference.search_answer with_font)) = Raise JSONDecodeError /\
  create_final_chain E Reference.llm ArxivRetriever_default topic []
  = (Ok (str "REPORT"),
     [Generate Reference.llm (search_prompt topic) (Ok (str "not json"));
      Streamlit (error (str "Error decoding JSON. Raw output: not json"));
      Retrieve ArxivRetriever_default topic (Ok [Reference.paper 1]);
      Generate Reference.llm
        (writer_prompt
           (PyDict [(str "question", topic);
                    (str "research_summary", PyStr [])])
           (PyDict [(str "question", topic)])
           (PyDict [(str "url_list",
                     PyStr (str "[Paper 1](http://arxiv.org/abs/1)"))]))
        (Ok (str "REPORT"))]).
Proof. split; reflexivity. Qed.

(** C1, amended.  When the model's answer to the search prompt is not
    JSON and the retrieval for the topic returns, the chain reports the
    decoding error, runs no summarization, and sends the final prompt with
    the empty string as research summary and with the links of the first
    ten documents found for the topic as reference list; that list is
    empty exactly when the retriever finds nothing.  The chain returns
    what the model answers to the final prompt. *)
Theorem final_chain_invalid_json (E : Env) (llm : GoogleGenerativeAI)
    (retriever : ArxivRetriever) (topic raw : pystr) (found : list Document)
    (t : trace) :
  let question := PyStr topic in
  let t1 := t ++ [Generate llm (search_prompt question) (Ok raw);
                  Streamlit (error (str "Error decoding JSON. Raw output: " ++ raw))] in
  let t2 := t1 ++ [Retrieve retriever question (Ok found)] in
  let final :=
    writer_prompt
      (PyDict [(str "question", question); (str "research_summary", PyStr [])])
      (PyDict [(str "question", question)])
      (PyDict [(str "url_list", PyStr (url_list_text found))]) in
  llm_answer E t llm (search_prompt question) = Ok raw ->
  json_loads E (PyStr raw) = Raise JSONDecodeError ->
  arxiv_docs E t1 retriever question = Ok found ->
  create_final_chain E llm retriever question t
  = (llm_answer E t2 llm final, t2 ++ [Generate llm final (llm_answer E t2 llm final)])
  /\ (url_list_text found = [] <-> found = []).
Proof.
  intros question t1 t2 final Hsearch Hjson Hfound.
  split; [|apply url_list_text_empty_iff].
  unfold create_final_chain, create_research_summary_chain,
    create_full_research_chain, create_search_query_chain.
  unfold bind at 1. unfold bind at 1. unfold bind at 1. unfold bind at 1.
  unfold invoke at 1. rewrite Hsearch.
  rewrite (parse_json_decode_error E (PyStr raw) _ Hjson).
  unfold decode_error_message, format. rewrite <- app_assoc.
  change ([Generate llm (search_prompt question) (Ok raw)]
          ++ [Streamlit (error (str "Error decoding JSON. Raw output: " ++ raw))])
    with [Generate llm (search_prompt question) (Ok raw);
          Streamlit (error (str "Error decoding JSON. Raw output: " ++ raw))].
  fold t1. unfold bind at 1. unfold lift, py_iter. simpl mapM. unfold ret at 1.
  unfold ret at 1. unfold bind at 1.
  unfold create_url_list_chain, bind, get_summaries_as_docs. rewrite Hfound.
  fold t2. unfold ret, invoke. reflexivity.
Qed.

(** C1, amended, on a model that answers in prose and a retriever that
    finds nothing: the final prompt goes out with an empty summary and an
    empty reference list. *)
Lemma final_chain_invalid_json_nothing_found :
  let E := Reference.env nothing_found in
  let question := PyStr (str "quantum error correction") in
  let raw := str "Sure! Here are three queries:" in
  let t1 := [] ++ [Generate Reference.llm (search_prompt question) (Ok raw);
                   Streamlit (error (str "Error decoding JSON. Raw output: " ++ raw))] in
  let t2 := t1 ++ [Retrieve ArxivRetriever_default question (Ok [])] in
  let final :=
    writer_prompt
      (PyDict [(str "question", question); (str "research_summary", PyStr [])])
      (PyDict [(str "question", question)])
      (PyDict [(str "url_list", PyStr (url_list_text []))]) in
  create_final_chain E Reference.llm ArxivRetriever_default question []
  = (llm_answer E t2 Reference.llm final,
     t2 ++ [Generate Reference.llm final (llm_answer E t2 Reference.llm final)])
  /\ (url_list_text [] = [] <-> @nil Document = []).
Proof.
  apply (@final_chain_invalid_json (Reference.env nothing_found) Reference.llm
           ArxivRetriever_default (str "quantum error correction")
           (str "Sure! Here are three queries:") [] []);
    reflexivity.
Defined.

(* ------------------------------------------------------------------ *)
(** ** The page *)

Lemma starts_with_after {A B} (m : M A) (k : A -> M B) (a : A)
    (t : trace) (es1 es2 : list event) :
  m t = (Ok a, t ++ es1) -> starts_with (k a) (t ++ es1) es2 ->
  starts_with (bind m k) t (es1 ++ es2).
Proof.
  intros Hm [rest Hk]. exists rest. unfold bind. rewrite Hm, Hk.
  now rewrite <- !app_assoc.
Qed.

Lemma starts_with_spinner {A} (text : pystr) (body : M A) (t : trace)
    (es : list event) :
  starts_with body (t ++ [Streamlit (spinner_enter text)]) es ->
  starts_with (with_spinner text body) t (Streamlit (spinner_enter text) :: es).
Proof.
  intros [rest Hb]. exists (rest ++ [Streamlit spinner_exit]).
  unfold with_spinner. destruct (body _) as [r t']. simpl in *. subst t'.
  now rewrite <- !app_assoc.
Qed.

Section Page.

Variable E : Env.

Lemma main_on_button (w : widgets) (t : trace) :
  main E w t = on_button E w (t ++ page_head).
Proof.
  unfold main, st, bind, emit. rewrite <- !app_assoc. reflexivity.
Qed.

Lemma final_chain_starts (llm : GoogleGenerativeAI) (r : ArxivRetriever)
    (q : pyobj) (t : trace) :
  starts_with (create_final_chain E llm r q) t
    [Generate llm (search_prompt q) (llm_answer E t llm (search_prompt q))].
Proof.
  unfold create_final_chain, create_research_summary_chain,
    create_full_research_chain, create_search_query_chain.
  apply starts_with_bind;
    [|intros; apply extends_bind;
      [apply extends_url_list_chain|intros; apply extends_invoke]].
  apply starts_with_bind; [|intros; apply extends_ret].
  apply starts_with_bind;
    [|intros; apply extends_bind;
      [apply extends_lift
      |intros; apply extends_mapM; intros; apply extends_web_search_chain]].
  apply starts_with_bind; [|intros; apply extends_parse_json].
  exists []. reflexivity.
Qed.

Lemma on_button_runs_pipeline (w : widgets) (t : trace) :
  generate_clicked w = true ->
  google_api_key_input w <> [] ->
  research_topic_input w <> [] ->
  let llm := {| model := str "gemini-1.5-flash";
                google_api_key := google_api_key_input w;
                temperature := (8 # 10)%Q |} in
  let question := PyStr (research_topic_input w) in
  let t0 := t ++ [Streamlit (spinner_enter (str "Generating report..."));
                  New_llm llm; New_retriever ArxivRetriever_default] in
  starts_with (on_button E w) t
    [Streamlit (spinner_enter (str "Generating report..."));
     New_llm llm; New_retriever ArxivRetriever_default;
     Generate llm (search_prompt question) (llm_answer E t0 llm (search_prompt question))].
Proof.
  intros Hclick Hkey Htopic llm question t0. unfold on_button. rewrite Hclick.
  destruct (google_api_key_input w) as [|k key] eqn:Ek; [congruence|].
  destruct (research_topic_input w) as [|c topic] eqn:Et; [congruence|].
  apply starts_with_bind.
  - apply starts_with_spinner.
    apply (@starts_with_after _ _
             (initialize_llm (k :: key))
             (fun llm => retriever <- initialize_retriever ;;
                         create_final_chain E llm retriever (PyStr (c :: topic)))
             llm _ [New_llm llm]); [reflexivity|].
    apply (@starts_with_after _ _
             initialize_retriever
             (fun retriever => create_final_chain E llm retriever (PyStr (c :: topic)))
             ArxivRetriever_default _ [New_retriever ArxivRetriever_default]);
      [reflexivity|].
    unfold t0. rewrite <- !app_assoc. apply final_chain_starts.
  - intros report. unfold st.
    repeat (intros; first [apply extends_bind | apply extends_emit
                          | apply extends_generate_pdf]).
Qed.

End Page.

(** C7. When the button is pressed and the API key or the topic is
    empty, [main] writes one error on the page and returns: no client is
    constructed and no service is called.  Whenever a run of [main]
    constructs a client or calls a service, the button was pressed and both
    inputs were non-empty; and in that case it does construct the two
    clients and sends the search prompt. *)
Theorem main_validates_inputs (E : Env) (w : widgets) (t : trace) :
  (generate_clicked w = true ->
   google_api_key_input w = [] \/ research_topic_input w = [] ->
   let message := match google_api_key_input w with
                  | [] => str "API Key is required."
                  | _ :: _ => str "Research topic is required."
                  end in
   main E w t = (Ok tt, t ++ page_head ++ [Streamlit (error message)]) /\
   existsb is_pipeline_event (page_head ++ [Streamlit (error message)]) = false) /\
  (forall new, snd (main E w t) = t ++ new ->
     existsb is_pipeline_event new = true ->
     generate_clicked w = true /\
     google_api_key_input w <> [] /\ research_topic_input w <> []) /\
  (generate_clicked w = true ->
   google_api_key_input w <> [] -> research_topic_input w <> [] ->
   exists llm answer rest,
     google_api_key llm = google_api_key_input w /\
     snd (main E w t)
     = t ++ page_head
         ++ [Streamlit (spinner_enter (str "Generating report..."));
             New_llm llm; New_retriever ArxivRetriever_default;
             Generate llm (search_prompt (PyStr (research_topic_input w))) answer]
         ++ rest).
Proof.
  split; [|split].
  - intros Hclick Hempty message. rewrite main_on_button. unfold on_button.
    rewrite Hclick. subst message.
    destruct (google_api_key_input w) as [|k key].
    + split; [|reflexivity]. unfold st, emit. now rewrite <- app_assoc.
    + destruct Hempty as [Hk|Ht]; [discriminate|]. rewrite Ht.
      split; [|reflexivity]. unfold st, emit. now rewrite <- app_assoc.
  - intros new Hnew Hpipe. rewrite main_on_button in Hnew. unfold on_button in Hnew.
    destruct (generate_clicked w).
    + destruct (google_api_key_input w) as [|k key].
      * unfold st, emit in Hnew. simpl in Hnew. rewrite <- app_assoc in Hnew.
        apply app_inv_head in Hnew. subst new. discriminate.
      * destruct (research_topic_input w) as [|c topic].
        -- unfold st, emit in Hnew. simpl in Hnew. rewrite <- app_assoc in Hnew.
           apply app_inv_head in Hnew. subst new. discriminate.
        -- repeat split; discriminate.
    + unfold ret in Hnew. simpl in Hnew.
      apply app_inv_head in Hnew. subst new. discriminate.
  - intros Hclick Hkey Htopic.
    destruct (on_button_runs_pipeline E w (t ++ page_head) Hclick Hkey Htopic)
      as [rest Hrun].
    eexists _, _, rest. split; [|rewrite main_on_button, Hrun, <- !app_assoc;
                                 reflexivity].
    reflexivity.
Qed.

(** C7 on a press of the button with a topic and no key. *)
Lemma main_without_key :
  let message := str "API Key is required." in
  main (Reference.env bare_script) no_key []
  = (Ok tt, [] ++ page_head ++ [Streamlit (error message)]) /\
  existsb is_pipeline_event (page_head ++ [Streamlit (error message)]) = false.
Proof.
  apply (proj1 (main_validates_inputs (Reference.env bare_script) no_key []));
    [reflexivity|now left].
Defined.

(* ================================================================== *)
(** * Further properties *)

(* ------------------------------------------------------------------ *)
(** ** More on flattening *)

Lemma flatten_list_no_documents (n : nat) :
  flatten_list (repeat (@nil pystr) n) = repeat LF (2 * pred n).
Proof.
  unfold flatten_list. induction n as [|[|n] IH]; try reflexivity.
  change (repeat (@nil pystr) (S (S n)))
    with (@nil pystr :: @nil pystr :: repeat (@nil pystr) n).
  change (map (fun sublist => join double_newline sublist)
              (@nil pystr :: @nil pystr :: repeat (@nil pystr) n))
    with (join double_newline (@nil pystr)
          :: map (fun sublist => join double_newline sublist)
                 (repeat (@nil pystr) (S n))).
  change (map (fun sublist => join double_newline sublist)
              (repeat (@nil pystr) (S n)))
    with (join double_newline (@nil pystr)
          :: map (fun sublist => join double_newline sublist)
                 (repeat (@nil pystr) n)) at 1.
  rewrite join_cons2.
  change (join double_newline (@nil pystr)
          :: map (fun sublist => join double_newline sublist)
                 (repeat (@nil pystr) n))
    with (map (fun sublist => join double_newline sublist)
              (repeat (@nil pystr) (S n))).
  rewrite IH. simpl. f_equal. f_equal.
  replace (n + S (n + 0)) with (S (n + (n + 0))) by lia. reflexivity.
Qed.

Lemma join_empty_iff (sep : pystr) (xs : list pystr) :
  sep <> [] -> (join sep xs = [] <-> xs = [] \/ xs = [[]]).
Proof.
  intros Hsep. split.
  - intros H. apply (f_equal (@List.length codepoint)) in H.
    rewrite length_join in H. simpl in H.
    destruct xs as [|x [|y rest]]; [now left| |].
    + right. unfold total_length in H. simpl in H.
      destruct x; [reflexivity|simpl in H; lia].
    + exfalso. destruct sep; [congruence|]. simpl in H. lia.
  - intros [->| ->]; reflexivity.
Qed.

(** X1. Flattening two lists of groups put end to end is flattening each
    and putting two newlines between the results, when neither is empty. *)
Theorem flatten_list_app (xs ys : list (list pystr)) :
  xs <> [] -> ys <> [] ->
  flatten_list (xs ++ ys) = flatten_list xs ++ [LF; LF] ++ flatten_list ys.
Proof.
  intros Hx Hy. unfold flatten_list. rewrite map_app.
  apply join_app; intros H; apply map_eq_nil in H; congruence.
Qed.

Lemma flatten_list_app_example :
  flatten_list ([[str "a"]; []] ++ [[str "b"; str "c"]])
  = flatten_list [[str "a"]; []] ++ [LF; LF] ++ flatten_list [[str "b"; str "c"]].
Proof.
  apply flatten_list_app; discriminate.
Defined.

Lemma flatten_list_empty_cases (nested : list (list pystr)) :
  flatten_list nested = [] <-> nested = [] \/ nested = [[]] \/ nested = [[[]]].
Proof.
  unfold flatten_list. split.
  - intros H. apply join_empty_iff in H; [|discriminate].
    destruct H as [H|H].
    + apply map_eq_nil in H. now left.
    + destruct nested as [|g [|g' rest]]; try discriminate.
      simpl in H. inversion H as [Hg].
      apply join_empty_iff in Hg; [|discriminate].
      destruct Hg as [->| ->]; tauto.
  - intros [->|[->| ->]]; reflexivity.
Qed.

(** X2. The flattened text is empty in three cases only: no group, one
    empty group, one group holding one empty string. *)
Theorem flatten_list_empty_iff (nested : list (list pystr)) :
  flatten_list nested = [] <-> nested = [] \/ nested = [[]] \/ nested = [[[]]].
Proof. apply flatten_list_empty_cases. Qed.

(* ------------------------------------------------------------------ *)
(** ** More on the JSON parsing helper *)

(** X3. [parse_json] never raises a JSON decode error; when it raises it
    has reported nothing, and when it reports, it reports the decoding
    error once and returns the empty list. *)
Theorem parse_json_never_raises_decode_error (E : Env) (x : pyobj) (t : trace) :
  fst (parse_json E x t) <> Raise JSONDecodeError /\
  (forall e, fst (parse_json E x t) = Raise e -> snd (parse_json E x t) = t) /\
  (snd (parse_json E x t) = t \/
   parse_json E x t = (Ok (PyList []), t ++ [decode_error_message E x])).
Proof.
  destruct (json_loads E x) as [v|e] eqn:Hl.
  - rewrite (parse_json_ok E x t Hl). simpl.
    split; [discriminate|]. split; [reflexivity|now left].
  - destruct (is_JSONDecodeError e) eqn:He.
    + destruct e; try discriminate.
      rewrite (parse_json_decode_error E x t Hl). simpl.
      split; [discriminate|]. split; [discriminate|now right].
    + rewrite (parse_json_other_error E x t Hl He). simpl.
      split; [intros H; inversion H; subst; discriminate|].
      split; [reflexivity|now left].
Qed.

(* ------------------------------------------------------------------ *)
(** ** More on the PDF renderer *)

Lemma encode_latin1_replace_bytes (s : pystr) :
  List.length (encode_latin1_replace s) = List.length s /\
  map Byte.to_N (encode_latin1_replace s) = map latin1_or_question_mark s /\
  (forallb (fun c => (c <=? 255)%N) s = true ->
   map Byte.to_N (encode_latin1_replace s) = s).
Proof.
  unfold encode_latin1_replace.
  split; [apply length_map|].
  assert (H : map Byte.to_N
                (map (fun c => match Byte.of_N c with
                               | Some b => b
                               | None => "?"%byte
                               end) s)
              = map latin1_or_question_mark s).
  { rewrite map_map. apply map_ext. intros c. unfold latin1_or_question_mark.
    pose proof (Byte.to_of_N_option_map c) as Hc.
    destruct (Byte.of_N c) as [b|]; simpl in Hc;
      destruct (c <=? 255)%N; try discriminate; [now inversion Hc|reflexivity]. }
  split; [exact H|].
  intros Hall. rewrite H. clear H.
  induction s as [|c s IH]; [reflexivity|].
  simpl in *. apply andb_true_iff in Hall. destruct Hall as [Hc Hs].
  unfold latin1_or_question_mark at 1. now rewrite Hc, IH.
Qed.

(** X4. What [generate_pdf] returns is the document of the library: as it
    is when the library hands out bytes, and when it hands out a string, one
    byte per character, the character itself up to U+00FF and a question
    mark above. *)
Theorem generate_pdf_returns_document (E : Env) (WB : fpdf_well_behaved E)
    (report_text : pystr) (t : trace) (Hne : report_text <> []) :
  exists d pdf_bytes t',
    generate_pdf E report_text t = (Ok pdf_bytes, t' ++ [Fpdf_output "S" (Ok d)]) /\
    fpdf_document E t' "S" = Ok d /\
    match d with
    | inl s => List.length pdf_bytes = List.length s /\
               map Byte.to_N pdf_bytes = map latin1_or_question_mark s
    | inr b => pdf_bytes = b
    end.
Proof.
  destruct report_text as [|c rest]; [congruence|].
  rewrite generate_pdf_steps.
  destruct (choose_font_ok WB (c :: rest) t) as [events [content [Hfont _]]].
  set (t1 := t ++ pdf_setup ++ events ++ [Fpdf (multi_cell 0 10 content) None]).
  destruct (fpdf_document E t1 "S") as [d|e] eqn:Hd.
  - exists d, (pdf_bytes_of d), t1. split; [|split; [exact Hd|]].
    + unfold bind at 1. rewrite (fpdf_core WB) by reflexivity.
      unfold bind at 1. rewrite (fpdf_core WB) by reflexivity.
      unfold bind at 1. rewrite (fpdf_core WB) by reflexivity.
      rewrite <- !app_assoc.
      change ([Fpdf FPDF_init None] ++ [Fpdf add_page None]
              ++ [Fpdf (set_auto_page_break true 15) None]) with pdf_setup.
      unfold bind at 1. rewrite Hfont. unfold render, bind.
      rewrite (fpdf_core WB) by reflexivity. unfold output, ret.
      rewrite <- !app_assoc. fold t1. rewrite Hd.
      unfold t1. rewrite <- !app_assoc. reflexivity.
    + destruct d as [s|b]; [|reflexivity].
      destruct (encode_latin1_replace_bytes s) as [Hlen [Hmap _]].
      split; assumption.
  - destruct (document_has_content WB t1) as [d [Hd' _]]. congruence.
Qed.

Lemma generate_pdf_returns_document_cafe :
  exists d pdf_bytes t',
    generate_pdf (Reference.env with_font) (str "caf" ++ [233%N]) []
    = (Ok pdf_bytes, t' ++ [Fpdf_output "S" (Ok d)]) /\
    fpdf_document (Reference.env with_font) t' "S" = Ok d /\
    match d with
    | inl s => List.length pdf_bytes = List.length s /\
               map Byte.to_N pdf_bytes = map latin1_or_question_mark s
    | inr b => pdf_bytes = b
    end.
Proof.
  apply (generate_pdf_returns_document (reference_fpdf_well_behaved with_font)).
  discriminate.
Defined.

(** X5. A report made of ASCII characters is laid out as it is, whether
    the Unicode font loads or not (NFKD leaving ASCII text unchanged). *)
Theorem generate_pdf_ascii_report (E : Env) (WB : fpdf_well_behaved E)
    (NFKD_ascii : forall u, forallb is_ascii u = true -> normalize_NFKD E u = u)
    (report_text : pystr) (t : trace)
    (Hne : report_text <> []) (Hascii : forallb is_ascii report_text = true) :
  exists events d,
    generate_pdf E report_text t
    = (Ok (pdf_bytes_of d),
       t ++ pdf_setup ++ events
         ++ [Fpdf (multi_cell 0 10 report_text) None; Fpdf_output "S" (Ok d)]).
Proof.
  destruct (generate_pdf_run WB t Hne) as [events [content [d [Hrun [Hch _]]]]].
  exists events, d.
  assert (Hc : content = report_text).
  { destruct Hch; try reflexivity;
      rewrite NFKD_ascii by assumption; now apply filter_ascii_id. }
  rewrite Hc in Hrun. exact Hrun.
Qed.

Lemma generate_pdf_ascii_report_example :
  exists events d,
    generate_pdf (Reference.env bare_script) (str "Surface codes") []
    = (Ok (pdf_bytes_of d),
       [] ++ pdf_setup ++ events
          ++ [Fpdf (multi_cell 0 10 (str "Surface codes")) None;
              Fpdf_output "S" (Ok d)]).
Proof.
  apply (generate_pdf_ascii_report (reference_fpdf_well_behaved bare_script)
           reference_nfkd_ascii); [discriminate|reflexivity].
Defined.

(** X6. The [try] statement catches [Exception] only: an exception of
    another kind raised while the font is added leaves [generate_pdf] at
    once, without Helvetica being selected or any text laid out. *)
Theorem generate_pdf_interrupt_not_caught (E : Env) (report_text : pystr)
    (t : trace) (e : exn)
    (Hne : report_text <> [])
    (Hcore : forall h c, unicode_font_call c = false -> fpdf_raises E h c = None)
    (Hraise : fpdf_raises E (t ++ pdf_setup) load_dejavu = Some e)
    (Hkind : is_Exception e = false) :
  generate_pdf E report_text t
  = (Raise e, t ++ pdf_setup ++ [Fpdf load_dejavu (Some e)]).
Proof.
  destruct report_text as [|c rest]; [congruence|].
  rewrite generate_pdf_steps.
  unfold bind at 1. rewrite fpdf_returns by (apply Hcore; reflexivity).
  unfold bind at 1. rewrite fpdf_returns by (apply Hcore; reflexivity).
  unfold bind at 1. rewrite fpdf_returns by (apply Hcore; reflexivity).
  rewrite <- !app_assoc.
  change ([Fpdf FPDF_init None] ++ [Fpdf add_page None]
          ++ [Fpdf (set_auto_page_break true 15) None]) with pdf_setup.
  unfold bind at 1. unfold choose_font, try_except. unfold bind at 1.
  rewrite (fpdf_raised E _ _ Hraise), Hkind, <- app_assoc. reflexivity.
Qed.

Lemma generate_pdf_interrupt_example :
  generate_pdf (interrupted_font (Reference.env bare_script)) (str "report") []
  = (Raise KeyboardInterrupt,
     [] ++ pdf_setup ++ [Fpdf load_dejavu (Some KeyboardInterrupt)]).
Proof.
  apply generate_pdf_interrupt_not_caught;
    [discriminate| |reflexivity|reflexivity].
  intros h c Hc. destruct c; try reflexivity; discriminate.
Defined.

(** X7. On a non-empty report [generate_pdf] raises nothing of its own:
    whenever it raises, the exception is the one a call on the PDF library
    raised, and that call is the last thing that happened. *)
Theorem generate_pdf_raises_library_errors_only (E : Env) (report_text : pystr)
    (t t' : trace) (e : exn)
    (Hne : report_text <> [])
    (Hrun : generate_pdf E report_text t = (Raise e, t')) :
  fpdf_raised_last e t'.
Proof.
  destruct report_text as [|c rest]; [congruence|].
  unfold generate_pdf, bind, try_except, fpdf, output, lift, ret in Hrun.
  rewrite transliterate_filter in Hrun.
  repeat match type of Hrun with
         | context [fpdf_raises ?E' ?h ?call] =>
             destruct (fpdf_raises E' h call) as [?e|] eqn:?
         | context [is_Exception ?x] => destruct (is_Exception x) eqn:?
         | context [fpdf_document ?E' ?h ?dest] =>
             destruct (fpdf_document E' h dest) as [?d|?e] eqn:?
         end;
    inversion Hrun; subst;
    eexists; first [ left; eexists; reflexivity | right; reflexivity ].
Qed.

Lemma generate_pdf_output_failure_example :
  fpdf_raised_last (ServiceError "disk full")
    (snd (generate_pdf (output_fails (Reference.env bare_script)) (str "report") [])).
Proof.
  apply (@generate_pdf_raises_library_errors_only
           (output_fails (Reference.env bare_script)) (str "report") []);
    [discriminate|reflexivity].
Defined.

(* ------------------------------------------------------------------ *)
(** ** More on the chains *)






Section MoreChains.

Variable E : Env.
Variable llm : GoogleGenerativeAI.
Variable retriever : ArxivRetriever.


Lemma web_search_chain_unfold (question : pyobj) (t : trace) (found : list Document) :
  arxiv_docs E t retriever question = Ok found ->
  create_web_search_chain E retriever llm question t
  = mapM (create_summary_chain E llm question) (firstn 10 found)
      (t ++ [Retrieve retriever question (Ok found)]).
Proof.
  intros Hfound. unfold create_web_search_chain, bind, get_summaries_as_docs.
  rewrite Hfound. reflexivity.
Qed.

Lemma web_search_chain_retriever_fails (question : pyobj) (t : trace) (e : exn) :
  arxiv_docs E t retriever question = Raise e ->
  create_web_search_chain E retriever llm question t
  = (Raise e, t ++ [Retrieve retriever question (Raise e)]).
Proof.
  intros Hfail. unfold create_web_search_chain, bind, get_summaries_as_docs.
  now rewrite Hfail.
Qed.


Hypothesis retriever_answers :
  forall h q, exists found, arxiv_docs E h retriever q = Ok found.
Hypothesis model_summarizes :
  forall h doc q, exists text, llm_answer E h llm (summary_prompt doc q) = Ok text.


End MoreChains.



Lemma search_query_chain_decoded (E : Env) (llm : GoogleGenerativeAI)
    (question : pyobj) (t : trace) (raw : pystr) (x : pyobj) :
  llm_answer E t llm (search_prompt question) = Ok raw ->
  json_loads E (PyStr raw) = Ok x ->
  create_search_query_chain E llm question t
  = (Ok x, t ++ [Generate llm (search_prompt question) (Ok raw)]).
Proof.
  intros Hsearch Hjson. unfold create_search_query_chain, bind, invoke.
  rewrite Hsearch. apply parse_json_ok. exact Hjson.
Qed.



(** X10. When the model's answer decodes to a number, a boolean or null,
    the chain raises a [TypeError] as soon as it tries to iterate over it:
    nothing is retrieved and nothing is reported on the page. *)
Theorem full_research_chain_scalar_answer (E : Env)
    (llm : GoogleGenerativeAI) (retriever : ArxivRetriever) (question : pyobj)
    (t : trace) (raw : pystr) (x : pyobj)
    (Hsearch : llm_answer E t llm (search_prompt question) = Ok raw)
    (Hjson : json_loads E (PyStr raw) = Ok x)
    (Hscalar : is_scalar x = true) :
  create_full_research_chain E llm retriever question t
  = (Raise TypeError, t ++ [Generate llm (search_prompt question) (Ok raw)]).
Proof.
  unfold create_full_research_chain. unfold bind at 1.
  rewrite (search_query_chain_decoded E llm question t Hsearch Hjson).
  unfold bind, lift. destruct x; try discriminate; reflexivity.
Qed.

Lemma full_research_chain_number_answer :
  create_full_research_chain (Reference.env number_answer) Reference.llm
    ArxivRetriever_default (PyStr (str "topic")) []
  = (Raise TypeError,
     [] ++ [Generate Reference.llm (search_prompt (PyStr (str "topic")))
              (Ok (str "3"))]).
Proof.
  apply (@full_research_chain_scalar_answer (Reference.env number_answer)
           Reference.llm ArxivRetriever_default (PyStr (str "topic")) []
           (str "3") (PyInt 3));
    reflexivity.
Defined.



Lemma web_chains_nothing_found (E : Env) (llm : GoogleGenerativeAI)
    (retriever : ArxivRetriever)
    (Hnone : forall h q, arxiv_docs E h retriever q = Ok [])
    (qs : list pyobj) (t : trace) :
  mapM (create_web_search_chain E retriever llm) qs t
  = (Ok (repeat [] (List.length qs)),
     t ++ map (fun q => Retrieve retriever q (Ok [])) qs).
Proof.
  revert t. induction qs as [|q qs IH]; intros t.
  - simpl. unfold ret. now rewrite app_nil_r.
  - simpl. unfold bind at 1.
    rewrite (web_search_chain_unfold E llm retriever q t (Hnone t q)).
    simpl. unfold ret at 1. unfold bind at 1. rewrite IH.
    unfold ret. rewrite <- app_assoc. reflexivity.
Qed.

(** X12. When the retriever finds nothing for any query, no summary is
    asked for and the writer prompt is still sent: its reference list is
    empty and its research summary is made of the separators alone, two
    newlines between any two queries, so it is the empty string only when
    there is at most one query. *)
Theorem final_chain_nothing_found (E : Env)
    (llm : GoogleGenerativeAI) (retriever : ArxivRetriever) (question : pyobj)
    (t : trace) (raw : pystr) (x : pyobj) (qs : list pyobj)
    (Hsearch : llm_answer E t llm (search_prompt question) = Ok raw)
    (Hjson : json_loads E (PyStr raw) = Ok x)
    (Hiter : py_iter x = Ok qs)
    (Hnone : forall h q, arxiv_docs E h retriever q = Ok []) :
  let t1 := t ++ Generate llm (search_prompt question) (Ok raw)
              :: map (fun q => Retrieve retriever q (Ok [])) qs
              ++ [Retrieve retriever question (Ok [])] in
  let final :=
    writer_prompt
      (PyDict [(str "question", question);
               (str "research_summary",
                PyStr (repeat LF (2 * pred (List.length qs))))])
      (PyDict [(str "question", question)])
      (PyDict [(str "url_list", PyStr [])]) in
  create_final_chain E llm retriever question t
  = (llm_answer E t1 llm final, t1 ++ [Generate llm final (llm_answer E t1 llm final)]).
Proof.
  intros t1 final.
  unfold create_final_chain, create_research_summary_chain.
  unfold bind at 1. unfold bind at 1.
  unfold create_full_research_chain. unfold bind at 1.
  rewrite (search_query_chain_decoded E llm question t Hsearch Hjson).
  unfold bind at 1. unfold lift. rewrite Hiter.
  rewrite (web_chains_nothing_found E llm retriever Hnone).
  rewrite flatten_list_no_documents.
  unfold ret at 1. unfold bind at 1.
  unfold create_url_list_chain, bind, get_summaries_as_docs. rewrite Hnone.
  unfold ret, invoke.
  change (url_list_text []) with (@nil codepoint).
  assert (Ht1 : ((t ++ [Generate llm (search_prompt question) (Ok raw)])
                 ++ map (fun q => Retrieve retriever q (Ok [])) qs)
                ++ [Retrieve retriever question (Ok [])] = t1)
    by (unfold t1; rewrite <- !app_assoc; reflexivity).
  rewrite Ht1. reflexivity.
Qed.

Lemma final_chain_three_queries_nothing_found :
  let E := Reference.env three_queries_nothing_found in
  let question := PyStr (str "topic") in
  let qs := [PyStr (str "a"); PyStr (str "b"); PyStr (str "c")] in
  let t1 := [] ++ Generate Reference.llm (search_prompt question)
                    (Ok (Reference.search_answer three_queries_nothing_found))
              :: map (fun q => Retrieve ArxivRetriever_default q (Ok [])) qs
              ++ [Retrieve ArxivRetriever_default question (Ok [])] in
  let final :=
    writer_prompt
      (PyDict [(str "question", question);
               (str "research_summary", PyStr [LF; LF; LF; LF])])
      (PyDict [(str "question", question)])
      (PyDict [(str "url_list", PyStr [])]) in
  create_final_chain E Reference.llm ArxivRetriever_default question []
  = (llm_answer E t1 Reference.llm final,
     t1 ++ [Generate Reference.llm final (llm_answer E t1 Reference.llm final)]).
Proof.
  apply (@final_chain_nothing_found
           (Reference.env three_queries_nothing_found) Reference.llm
           ArxivRetriever_default (PyStr (str "topic")) []
           (Reference.search_answer three_queries_nothing_found)
           (PyList [PyStr (str "a"); PyStr (str "b"); PyStr (str "c")])
           [PyStr (str "a"); PyStr (str "b"); PyStr (str "c")]);
    reflexivity.
Defined.

(** X13. While the retriever raises on every query, the final chain never
    returns a report and never sends the writer prompt, whatever the model
    answers. *)
Theorem final_chain_retriever_down (E : Env)
    (llm : GoogleGenerativeAI) (retriever : ArxivRetriever) (question : pyobj)
    (t : trace) (e : exn)
    (Hdown : forall h q, arxiv_docs E h retriever q = Raise e) :
  exists e' new,
    create_final_chain E llm retriever question t = (Raise e', t ++ new) /\
    existsb is_writer_call new = false.
Proof.
  assert (Hurl : forall t0,
             create_url_list_chain E retriever question t0
             = (Raise e, t0 ++ [Retrieve retriever question (Raise e)])).
  { intros t0. unfold create_url_list_chain, bind, get_summaries_as_docs.
    now rewrite Hdown. }
  assert (Hweb : forall q qs t0,
             mapM (create_web_search_chain E retriever llm) (q :: qs) t0
             = (Raise e, t0 ++ [Retrieve retriever q (Raise e)])).
  { intros q qs t0. simpl. unfold bind at 1.
    now rewrite (web_search_chain_retriever_fails E llm retriever q t0 (Hdown t0 q)). }
  unfold create_final_chain, create_research_summary_chain,
    create_full_research_chain, create_search_query_chain, bind, invoke, lift.
  destruct (llm_answer E t llm (search_prompt question)) as [raw|e1];
    [|eexists _, _; split; reflexivity].
  destruct (json_loads E (PyStr raw)) as [x|e2] eqn:Hjson.
  - rewrite (parse_json_ok E (PyStr raw) _ Hjson).
    destruct (py_iter x) as [[|q qs]|e3].
    + simpl mapM. unfold ret. rewrite Hurl, <- app_assoc.
      eexists _, _. split; reflexivity.
    + rewrite Hweb, <- app_assoc. eexists _, _. split; reflexivity.
    + eexists _, _. split; reflexivity.
  - destruct (is_JSONDecodeError e2) eqn:He2.
    + destruct e2; try discriminate.
      rewrite (parse_json_decode_error E (PyStr raw) _ Hjson).
      unfold py_iter. simpl mapM. unfold ret.
      rewrite Hurl, <- !app_assoc. eexists _, _. split; reflexivity.
    + rewrite (parse_json_other_error E (PyStr raw) _ Hjson He2).
      eexists _, _. split; reflexivity.
Qed.

Lemma final_chain_retriever_down_example :
  exists e' new,
    create_final_chain (retriever_down (Reference.env string_answer)) Reference.llm
      ArxivRetriever_default (PyStr (str "topic")) []
    = (Raise e', [] ++ new) /\
    existsb is_writer_call new = false.
Proof.
  apply (@final_chain_retriever_down
           (retriever_down (Reference.env string_answer)) Reference.llm
           ArxivRetriever_default (PyStr (str "topic")) []
           (ServiceError "arxiv is unreachable")).
  reflexivity.
Defined.

(* ------------------------------------------------------------------ *)
(** ** More on the page *)

Lemma main_runs_chain (E : Env) (w : widgets) (t : trace) :
  generate_clicked w = true ->
  google_api_key_input w <> [] ->
  research_topic_input w <> [] ->
  main E w t
  = match create_final_chain E (client w) ArxivRetriever_default
            (PyStr (research_topic_input w)) (before_chain w t) with
    | (Ok report, t1) => deliver E report (t1 ++ [Streamlit spinner_exit])
    | (Raise e, t1) => (Raise e, t1 ++ [Streamlit spinner_exit])
    end.
Proof.
  intros Hclick Hkey Htopic. rewrite main_on_button.
  unfold on_button, before_chain, client. rewrite Hclick.
  destruct (google_api_key_input w) as [|k key]; [congruence|].
  destruct (research_topic_input w) as [|c topic]; [congruence|].
  unfold bind at 1. unfold with_spinner.
  unfold initialize_llm, initialize_retriever.
  unfold bind at 1. unfold bind at 1. unfold emit at 1. unfold ret at 1.
  unfold bind at 1. unfold bind at 1. unfold emit at 1. unfold ret at 1.
  rewrite <- !app_assoc.
  change ([Streamlit (spinner_enter (str "Generating report..."))]
          ++ [New_llm {| model := str "gemini-1.5-flash";
                         google_api_key := k :: key;
                         temperature := (8 # 10)%Q |}]
          ++ [New_retriever ArxivRetriever_default])
    with [Streamlit (spinner_enter (str "Generating report..."));
          New_llm {| model := str "gemini-1.5-flash";
                     google_api_key := k :: key;
                     temperature := (8 # 10)%Q |};
          New_retriever ArxivRetriever_default].
  destruct (create_final_chain E _ ArxivRetriever_default (PyStr (c :: topic)) _)
    as [[report|e] t1]; reflexivity.
Qed.

(** X14. When the final chain returns a non-empty report, [main]
    announces success, shows the report, renders it and offers the bytes,
    which are not empty, for download as research_report.pdf with the type
    application/pdf; that button is the last thing it draws (the PDF
    library doing its part). *)
Theorem main_delivers_report (E : Env) (WB : fpdf_well_behaved E)
    (w : widgets) (t t1 : trace) (report : pystr)
    (Hclick : generate_clicked w = true)
    (Hkey : google_api_key_input w <> [])
    (Htopic : research_topic_input w <> [])
    (Hchain : create_final_chain E (client w) ArxivRetriever_default
                (PyStr (research_topic_input w)) (before_chain w t)
              = (Ok report, t1))
    (Hreport : report <> []) :
  exists pdf_bytes t2,
    generate_pdf E report
      (t1 ++ [Streamlit spinner_exit;
              Streamlit (success (str "Report generated!"));
              Streamlit (markdown report)])
    = (Ok pdf_bytes, t2) /\
    pdf_bytes <> [] /\
    main E w t
    = (Ok tt,
       t2 ++ [Streamlit (download_button (str "Download PDF") pdf_bytes
                           "research_report.pdf" "application/pdf")]).
Proof.
  destruct (generate_pdf_run WB
              (t1 ++ [Streamlit spinner_exit;
                      Streamlit (success (str "Report generated!"));
                      Streamlit (markdown report)]) Hreport)
    as [events [content [d [Hrun [_ Hd]]]]].
  eexists _, _. split; [exact Hrun|]. split; [now apply pdf_bytes_nonempty|].
  rewrite (main_runs_chain E w t Hclick Hkey Htopic), Hchain.
  unfold deliver, st. unfold bind at 1. unfold emit at 1.
  unfold bind at 1. unfold emit at 1. unfold bind at 1.
  assert (Hshown : ((t1 ++ [Streamlit spinner_exit])
                    ++ [Streamlit (success (str "Report generated!"))])
                   ++ [Streamlit (markdown report)]
                   = t1 ++ [Streamlit spinner_exit;
                            Streamlit (success (str "Report generated!"));
                            Streamlit (markdown report)])
    by (rewrite <- !app_assoc; reflexivity).
  rewrite Hshown, Hrun. reflexivity.
Qed.

Lemma main_delivers_report_example :
  let E := Reference.env with_font in
  let w := press "key" "quantum error correction" in
  let t1 := snd (create_final_chain E (client w) ArxivRetriever_default
                   (PyStr (research_topic_input w)) (before_chain w [])) in
  exists pdf_bytes t2,
    generate_pdf E (str "REPORT")
      (t1 ++ [Streamlit spinner_exit;
              Streamlit (success (str "Report generated!"));
              Streamlit (markdown (str "REPORT"))])
    = (Ok pdf_bytes, t2) /\
    pdf_bytes <> [] /\
    main E w []
    = (Ok tt,
       t2 ++ [Streamlit (download_button (str "Download PDF") pdf_bytes
                           "research_report.pdf" "application/pdf")]).
Proof.
  apply (@main_delivers_report (Reference.env with_font)
           (reference_fpdf_well_behaved with_font)
           (press "key" "quantum error correction") []);
    try reflexivity; discriminate.
Defined.

(** X15. When the report the model returns is the empty string, [main]
    still announces success and shows the (empty) report, and then fails
    with the [ValueError] of [generate_pdf]: the PDF library is not called
    and no download is offered. *)
Theorem main_empty_report (E : Env) (w : widgets) (t t1 : trace)
    (Hclick : generate_clicked w = true)
    (Hkey : google_api_key_input w <> [])
    (Htopic : research_topic_input w <> [])
    (Hchain : create_final_chain E (client w) ArxivRetriever_default
                (PyStr (research_topic_input w)) (before_chain w t)
              = (Ok [], t1)) :
  main E w t
  = (Raise (ValueError "No report content provided."),
     t1 ++ [Streamlit spinner_exit;
            Streamlit (success (str "Report generated!"));
            Streamlit (markdown [])]).
Proof.
  rewrite (main_runs_chain E w t Hclick Hkey Htopic), Hchain.
  unfold deliver, st, bind, emit. simpl generate_pdf. unfold raise.
  rewrite <- !app_assoc. reflexivity.
Qed.

Lemma main_empty_report_example :
  let E := silent_model (Reference.env with_font) in
  let w := press "key" "quantum error correction" in
  let t1 := snd (create_final_chain E (client w) ArxivRetriever_default
                   (PyStr (research_topic_input w)) (before_chain w [])) in
  main E w []
  = (Raise (ValueError "No report content provided."),
     t1 ++ [Streamlit spinner_exit;
            Streamlit (success (str "Report generated!"));
            Streamlit (markdown [])]).
Proof.
  apply (@main_empty_report (silent_model (Reference.env with_font))
           (press "key" "quantum error correction") []);
    try reflexivity; discriminate.
Defined.

(** X16. When the final chain raises, [main] closes the spinner and lets
    the exception through: no success is announced, no report is shown and
    nothing is rendered. *)
Theorem main_chain_failure (E : Env) (w : widgets) (t t1 : trace) (e : exn)
    (Hclick : generate_clicked w = true)
    (Hkey : google_api_key_input w <> [])
    (Htopic : research_topic_input w <> [])
    (Hchain : create_final_chain E (client w) ArxivRetriever_default
                (PyStr (research_topic_input w)) (before_chain w t)
              = (Raise e, t1)) :
  main E w t = (Raise e, t1 ++ [Streamlit spinner_exit]).
Proof.
  now rewrite (main_runs_chain E w t Hclick Hkey Htopic), Hchain.
Qed.

Lemma main_chain_failure_example :
  let E := retriever_down (Reference.env with_font) in
  let w := press "key" "quantum error correction" in
  let t1 := snd (create_final_chain E (client w) ArxivRetriever_default
                   (PyStr (research_topic_input w)) (before_chain w [])) in
  main E w [] = (Raise (ServiceError "arxiv is unreachable"), t1 ++ [Streamlit spinner_exit]).
Proof.
  apply (@main_chain_failure (retriever_down (Reference.env with_font))
           (press "key" "quantum error correction") []);
    try reflexivity; discriminate.
Defined.

(* ------------------------------------------------------------------ *)
(** ** The research summary of summarized documents *)

(** X17. As soon as one document has been summarized, the research
    summary is not the empty string: every record starts with its label. *)
Theorem research_summary_nonempty (groups : list (list pystr))
    (Hrecords : Forall (Forall (fun r => exists doc text, r = summary_record doc text))
                       groups)
    (Hsome : Exists (fun g => g <> []) groups) :
  flatten_list groups <> [].
Proof.
  intros Hflat. apply flatten_list_empty_cases in Hflat.
  destruct Hflat as [->|[->| ->]].
  - inversion Hsome.
  - inversion Hsome as [? ? Hg|? ? Hg]; [congruence|inversion Hg].
  - inversion Hrecords as [|? ? Hg _]; subst.
    inversion Hg as [|? ? [doc [text Hr]] _]; subst.
    discriminate.
Qed.

Lemma research_summary_nonempty_example :
  flatten_list [[]; [summary_record (Reference.paper 1) (str "about Paper 1")]] <> [].
Proof.
  apply research_summary_nonempty.
  - repeat constructor. eexists _, _. reflexivity.
  - right. left. discriminate.
Defined.
